(** * The note edit route: [notes.$noteId_.edit.tsx]

    A shallow embedding of the route module
    [app/routes/users+/$username_+/notes.$noteId_.edit.tsx]: its read
    handler [loader], its write handler [action], the form component
    [NoteEdit] with its helper [ErrorList], and the route's
    [ErrorBoundary].

    A JavaScript string is modelled by the [string] that holds its UTF-8
    encoding, which is how a literal of this file is read; a number (a
    length, an HTTP status) by [Z].  The handlers are [async] functions
    that resolve with a value or reject, with a thrown [Response] or with
    an error; they run in a small state-and-exception monad over the
    database and a log of the effects performed. *)

From Stdlib Require Import String Ascii List ZArith Bool Lia.
Import ListNotations.

Local Open Scope string_scope.
Local Open Scope Z_scope.

Set Warnings "-register-all".

(** ** JavaScript values used by the module *)

(** The UTF-16 code units a byte of a UTF-8 encoding stands for: one for
    the byte of an ASCII character and for the first byte of a character
    encoded on two or three bytes, two (a surrogate pair) for the first
    byte of a character encoded on four, none for a continuation byte. *)
Definition code_units (c : ascii) : Z :=
  let n := N_of_ascii c in
  if (n <? 128)%N then 1
  else if (n <? 192)%N then 0
  else if (n <? 240)%N then 1
  else 2.

(** [s.length]: the number of UTF-16 code units of the string. *)
Fixpoint length (s : string) : Z :=
  match s with
  | EmptyString => 0
  | String c s' => code_units c + length s'
  end.

(** Truthiness of a [string | undefined] value: [undefined] and the empty
    string are falsy.  The result is the value itself when truthy, which
    is what TypeScript's narrowing gives the code that follows. *)
Definition truthy (v : option string) : option string :=
  match v with
  | Some s => if String.eqb s EmptyString then None else Some s
  | None => None
  end.

(** A [string | undefined] value interpolated in a template literal. *)
Definition interpolate (v : option string) : string :=
  match v with
  | Some s => s
  | None => "undefined"
  end.

(** [xs.length] of an array. *)
Definition Array_length {A : Type} (xs : list A) : Z := Z.of_nat (List.length xs).

(** A [number] used as a condition: zero is falsy. *)
Definition nonzero (n : Z) : bool := negb (n =? 0).

(** [xs.push(x)]. *)
Definition push {A : Type} (xs : list A) (x : A) : list A := (xs ++ [x])%list.

(** ** Notes and the data the handlers exchange *)

Module Note.
Record t : Type := { id : string; title : string; content : string }.
End Note.

(** The argument of [updateNote]. *)
Module NoteUpdate.
Record t : Type := { id : string; title : string; content : string }.
End NoteUpdate.

Module FieldErrors.
Record t : Type := { title : list string; content : list string }.
End FieldErrors.

(** [type ActionErrors]. *)
Record ActionErrors : Type := {
  formErrors : list string;
  fieldErrors : FieldErrors.t
}.

(** [Object.values(errors.fieldErrors)]: the values in insertion order. *)
Definition Object_values (fe : FieldErrors.t) : list (list string) :=
  [FieldErrors.title fe; FieldErrors.content fe].

Module NoteData.
Record t : Type := { title : string; content : string }.
End NoteData.

(** The data [loader] serialises. *)
Record LoaderData : Type := { note : NoteData.t }.

(** The literal type ['error'] of the [status] field of the action's data. *)
Inductive ActionStatus : Type := error.

Definition ActionStatus_eqb (a b : ActionStatus) : bool :=
  match a, b with error, error => true end.

(** The data [action] serialises. *)
Record ActionData : Type := { status : ActionStatus; errors : ActionErrors }.

(** ** Responses *)

Inductive Json : Type :=
| JLoader (d : LoaderData)
| JAction (d : ActionData).

Inductive Body : Type :=
| BodyNull
| BodyText (s : string)
| BodyJson (j : Json).

Module Response.
Record t : Type := {
  status : Z;
  location : option string;   (* the [Location] header *)
  body : Body
}.
End Response.

Record ResponseInit : Type := { init_status : option Z }.

(** [new Response(body, { status })]. *)
Definition new_Response (text : string) (status : Z) : Response.t :=
  {| Response.status := status;
     Response.location := None;
     Response.body := BodyText text |}.

(** [json(data, init)] of [@remix-run/node]: status 200 unless [init]
    gives one. *)
Definition json (data : Json) (init : ResponseInit) : Response.t :=
  {| Response.status :=
       match init_status init with Some s => s | None => 200 end;
     Response.location := None;
     Response.body := BodyJson data |}.

Definition no_init : ResponseInit := {| init_status := None |}.

(** An error that is no [Response]. *)
Inductive JsError : Type := TypeError.

(** How an [async] handler settles: it returns, it throws a response, or
    an error raised by a function it calls goes through it. *)
Inductive Outcome (A : Type) : Type :=
| Returned (a : A)
| Thrown (r : Response.t)
| Raised (e : JsError).
Arguments Returned {A} _.
Arguments Thrown {A} _.
Arguments Raised {A} _.

(** *** Header values

    [redirect] stores its URL with [headers.set("Location", url)], which
    takes a [ByteString], removes the HTTP whitespace around it and
    refuses what is then no header value, as the Fetch standard has it. *)

(** A JavaScript string is a [ByteString] when no code unit is above 255:
    in the UTF-8 encoding, when no byte is the first byte of a character
    above U+00FF. *)
Definition is_byte (c : ascii) : bool := (N_of_ascii c <? 196)%N.

Fixpoint forall_chars (p : ascii -> bool) (s : string) : bool :=
  match s with
  | EmptyString => true
  | String c s' => p c && forall_chars p s'
  end.

(** HTTP whitespace: tab, line feed, carriage return, space. *)
Definition is_http_whitespace (c : ascii) : bool :=
  let n := N_of_ascii c in
  ((n =? 9) || (n =? 10) || (n =? 13) || (n =? 32))%N.

Fixpoint strip_leading (s : string) : string :=
  match s with
  | EmptyString => EmptyString
  | String c s' => if is_http_whitespace c then strip_leading s' else s
  end.

(** The string without the HTTP whitespace at its end: [None] when it is
    whitespace throughout. *)
Fixpoint strip_trailing (s : string) : option string :=
  match s with
  | EmptyString => None
  | String c s' =>
      match strip_trailing s' with
      | Some t => Some (String c t)
      | None => if is_http_whitespace c then None else Some (String c EmptyString)
      end
  end.

(** The normalized value: no HTTP whitespace at either end. *)
Definition normalize (value : string) : string :=
  match strip_trailing (strip_leading value) with
  | Some v => v
  | None => EmptyString
  end.

(** Neither NUL nor a line feed nor a carriage return. *)
Definition is_header_value_char (c : ascii) : bool :=
  let n := N_of_ascii c in
  negb ((n =? 0) || (n =? 10) || (n =? 13))%N.

(** What [headers.set(name, value)] stores for [value], when it accepts
    it; it throws a [TypeError] otherwise. *)
Definition header_value (value : string) : option string :=
  if forall_chars is_byte value
  then
    let v := normalize value in
    if forall_chars is_header_value_char v then Some v else None
  else None.

(** [redirect(url)] of [@remix-run/node]: status 302 and a [Location]
    header, or the [TypeError] of a URL that is no header value. *)
Definition redirect (url : string) : Outcome Response.t :=
  match header_value url with
  | Some v =>
      Returned {| Response.status := 302;
                  Response.location := Some v;
                  Response.body := BodyNull |}
  | None => Raised TypeError
  end.

(** ** Requests *)

(** A [FormDataEntryValue]: a string or a [File] (kept by its name). *)
Inductive FormDataEntryValue : Type :=
| FString (s : string)
| FFile (filename : string).

Definition FormData : Type := list (string * FormDataEntryValue).

(** [formData.get(name)]: the first value under [name], or [null]. *)
Fixpoint FormData_get (fd : FormData) (name : string)
  : option FormDataEntryValue :=
  match fd with
  | [] => None
  | (k, v) :: rest => if String.eqb k name then Some v else FormData_get rest name
  end.

(** [typeof v === 'string'], returning the narrowed value. *)
Definition typeof_string (v : option FormDataEntryValue) : option string :=
  match v with
  | Some (FString s) => Some s
  | _ => None
  end.

(** A request, by the form its body decodes to. *)
Record Request : Type := { form : FormData }.

Record Params : Type := {
  noteId : option string;
  username : option string
}.

Record DataFunctionArgs : Type := { request : Request; params : Params }.

(** ** The database module [~/utils/db.server.ts]

    The module is an external collaborator of the route: the handlers
    only call [db.note.findFirst] with an [id equals] filter and
    [updateNote].  Both are taken as the operations of an interface, so
    that what is proved of the handlers holds for any implementation. *)

Class DbServer (Db : Type) : Type := {
  (* [db.note.findFirst({ where: { id: { equals: id } } })] *)
  db_note_findFirst : option string -> Db -> option Note.t;
  (* [updateNote({ id, title, content })] *)
  updateNote : NoteUpdate.t -> Db -> Db
}.

(** ** Effects *)

(** What a handler does to the outside: it consumes the request body, and
    it calls [updateNote]. *)
Inductive Event : Type :=
| ReadFormData
| UpdateNote (u : NoteUpdate.t).

Record World (Db : Type) : Type := {
  db : Db;
  log : list Event
}.
Arguments db {Db} _.
Arguments log {Db} _.
Arguments Build_World {Db} _ _.

Definition M (Db A : Type) : Type := World Db -> Outcome A * World Db.

Definition ret {Db A : Type} (a : A) : M Db A := fun w => (Returned a, w).

Definition throw {Db A : Type} (r : Response.t) : M Db A :=
  fun w => (Thrown r, w).

Definition bind {Db A B : Type} (m : M Db A) (k : A -> M Db B) : M Db B :=
  fun w =>
    match m w with
    | (Returned a, w') => k a w'
    | (Thrown r, w') => (Thrown r, w')
    | (Raised e, w') => (Raised e, w')
    end.

(** A computation that touches nothing and settles as given. *)
Definition settle {Db A : Type} (o : Outcome A) : M Db A := fun w => (o, w).

Notation "x <- m ;; k" := (bind m (fun x => k))
  (at level 61, m at next level, right associativity).
Notation "m ;;; k" := (bind m (fun _ => k))
  (at level 61, right associativity).

Definition emit {Db : Type} (e : Event) : M Db unit :=
  fun w => (Returned tt, {| db := db w; log := push (log w) e |}).

(** [await request.formData()]. *)
Definition request_formData {Db : Type} (r : Request) : M Db FormData :=
  emit ReadFormData ;;; ret (form r).

(** ** Validation constants and the error object of [action] *)

Definition titleMinLength : Z := 1.
Definition titleMaxLength : Z := 100.
Definition contentMinLength : Z := 1.
Definition contentMaxLength : Z := 10000.

Definition push_title (e : ActionErrors) (msg : string) : ActionErrors :=
  {| formErrors := formErrors e;
     fieldErrors :=
       {| FieldErrors.title := push (FieldErrors.title (fieldErrors e)) msg;
          FieldErrors.content := FieldErrors.content (fieldErrors e) |} |}.

Definition push_content (e : ActionErrors) (msg : string) : ActionErrors :=
  {| formErrors := formErrors e;
     fieldErrors :=
       {| FieldErrors.title := FieldErrors.title (fieldErrors e);
          FieldErrors.content := push (FieldErrors.content (fieldErrors e)) msg |} |}.

(** The object [errors] once the four length checks have run. *)
Definition action_errors (title content : string) : ActionErrors :=
  let errors :=
    {| formErrors := [];
       fieldErrors := {| FieldErrors.title := []; FieldErrors.content := [] |} |} in
  let errors :=
    if length title <? titleMinLength
    then push_title errors "Title must be at least 1 character"
    else errors in
  let errors :=
    if length title >? titleMaxLength
    then push_title errors "Title must be at most 100 characters"
    else errors in
  let errors :=
    if length content <? contentMinLength
    then push_content errors "Content must be at least 1 character"
    else errors in
  let errors :=
    if length content >? contentMaxLength
    then push_content errors "Content must be at most 10000 characters"
    else errors in
  errors.

Definition hasErrors (errors : ActionErrors) : bool :=
  nonzero (Array_length (formErrors errors))
  || existsb (fun fieldErrors => nonzero (Array_length fieldErrors))
             (Object_values (fieldErrors errors)).

Section Handlers.

Context {Db : Type} `{DbServer Db}.

Definition findFirst (id : option string) : M Db (option Note.t) :=
  fun w => (Returned (db_note_findFirst id (db w)), w).

(** [await updateNote(u)]. *)
Definition call_updateNote (u : NoteUpdate.t) : M Db unit :=
  fun w =>
    (Returned tt,
     {| db := updateNote u (db w); log := push (log w) (UpdateNote u) |}).

(** Modelled from the spec: [invariantResponse] of [~/utils/misc.ts],
    which is not part of the route module.  A failed check "fails with
    a bad-request condition": it throws a response with status 400
    carrying the message.  The condition is given with the value it
    narrows to, as the function's [asserts condition] signature does
    for the code after the call. *)
Definition invariantResponse {A : Type} (condition : option A)
    (message : string) : M Db A :=
  match condition with
  | Some a => ret a
  | None => throw (new_Response message 400)
  end.

(** *** [loader] *)

Definition loader (args : DataFunctionArgs) : M Db Response.t :=
  note <- findFirst (noteId (params args)) ;;
  match note with
  | None => throw (new_Response "Note note found" 404)
  | Some note =>
      ret (json (JLoader {| note := {| NoteData.title := Note.title note;
                                       NoteData.content := Note.content note |} |})
                no_init)
  end.

(** *** [action] *)

Definition action (args : DataFunctionArgs) : M Db Response.t :=
  noteId <- invariantResponse (truthy (noteId (params args)))
              "noteId param is required" ;;
  formData <- request_formData (request args) ;;
  let title := FormData_get formData "title" in
  let content := FormData_get formData "content" in
  title <- invariantResponse (typeof_string title) "title must be a string" ;;
  content <- invariantResponse (typeof_string content) "content must be a string" ;;
  let errors := action_errors title content in
  if hasErrors errors
  then ret (json (JAction {| status := error; errors := errors |})
                 {| init_status := Some 400 |})
  else
    call_updateNote {| NoteUpdate.id := noteId;
                       NoteUpdate.title := title;
                       NoteUpdate.content := content |} ;;;
    settle (redirect ("/users/" ++ interpolate (username (params args))
                      ++ "/notes/" ++ noteId)).

End Handlers.

(** ** Rendering *)

(** The value of a JSX attribute.  React leaves out an attribute whose
    value is [undefined]. *)
Inductive PropValue : Type :=
| PUndefined
| PBool (b : bool)
| PNum (n : Z)
| PString (s : string).

Definition Props : Type := list (string * PropValue).

(** A rendered JSX tree.  The components of the UI library ([Form],
    [Input], [Textarea], [Label], [Button], [StatusButton]) stay as
    elements named after them; [Null] is a child that renders nothing. *)
Inductive Node : Type :=
| Element (type : string) (props : Props) (children : list Node)
| Text (s : string)
| Null.

(** A [string | undefined] attribute value. *)
Definition prop_of (v : option string) : PropValue :=
  match v with
  | Some s => PString s
  | None => PUndefined
  end.

(** A [string | undefined] expression in child position. *)
Definition child_of (v : option string) : Node :=
  match v with
  | Some s => Text s
  | None => Null
  end.

(** [b || undefined]. *)
Definition or_undefined (b : bool) : PropValue :=
  if b then PBool true else PUndefined.

Fixpoint get_prop (name : string) (props : Props) : PropValue :=
  match props with
  | [] => PUndefined
  | (k, v) :: rest => if String.eqb k name then v else get_prop name rest
  end.

(** The attribute [name] of a node; [PUndefined] when it carries none. *)
Definition attribute (name : string) (n : Node) : PropValue :=
  match n with
  | Element _ props _ => get_prop name props
  | _ => PUndefined
  end.

Definition carries (name : string) (n : Node) : Prop :=
  attribute name n <> PUndefined.

(** The first result a list gives, in order. *)
Definition first_some {A B : Type} (f : A -> option B) : list A -> option B :=
  fix go (xs : list A) : option B :=
    match xs with
    | [] => None
    | x :: xs' =>
        match f x with
        | Some r => Some r
        | None => go xs'
        end
    end.

(** The first element, in document order, that [p] accepts. *)
Fixpoint find (p : string -> Props -> bool) (n : Node) : option Node :=
  match n with
  | Element type props children =>
      if p type props then Some n else first_some (find p) children
  | _ => None
  end.

(** The text a tree shows. *)
Fixpoint textContent (n : Node) : string :=
  match n with
  | Element _ _ children => String.concat EmptyString (List.map textContent children)
  | Text s => s
  | Null => EmptyString
  end.

Definition has_id (id : string) (_ : string) (props : Props) : bool :=
  match get_prop "id" props with
  | PString s => String.eqb s id
  | _ => false
  end.

Definition has_type (ty : string) (type : string) (_ : Props) : bool :=
  String.eqb type ty.

Definition getElementById (id : string) (n : Node) : option Node :=
  find (has_id id) n.

Definition getElementByType (ty : string) (n : Node) : option Node :=
  find (has_type ty) n.

(** [xs.map((x, i) => f x i)], from index [i]. *)
Fixpoint map_from {A B : Type} (f : A -> Z -> B) (i : Z) (xs : list A)
  : list B :=
  match xs with
  | [] => []
  | x :: xs' => f x i :: map_from f (i + 1) xs'
  end.

Definition Array_map {A B : Type} (f : A -> Z -> B) (xs : list A) : list B :=
  map_from f 0 xs.

(** *** [ErrorList] *)

(** The item [ErrorList] renders for the error at index [i]. *)
Definition ErrorList_item (error : string) (i : Z) : Node :=
  Element "li"
    [("key", PNum i);
     ("className", PString "text-[10px] text-foreground-danger")]
    [Text error].

Definition ErrorList (id : option string) (errors : option (list string))
  : Node :=
  if match errors with
     | Some errors => nonzero (Array_length errors)
     | None => false
     end
  then
    Element "ul"
      [("id", prop_of id); ("className", PString "flex flex-col gap-1")]
      (Array_map ErrorList_item
         (match errors with Some errors => errors | None => [] end))
  else Null.

(** *** [NoteEdit] *)

Inductive NavigationState : Type := idle | loading | submitting.

Definition NavigationState_eqb (a b : NavigationState) : bool :=
  match a, b with
  | idle, idle | loading, loading | submitting, submitting => true
  | _, _ => false
  end.

(** What [useNavigation()] returns, as far as the component reads it. *)
Record Navigation : Type := {
  state : NavigationState;
  formMethod : option string;
  formAction : option string
}.

(** [v === s] for a [string | undefined] value [v] and a string [s]. *)
Definition strict_eq (v : option string) (s : string) : bool :=
  match v with
  | Some s' => String.eqb s' s
  | None => false
  end.

(** What the hooks hand to one render of the component. *)
Record Hooks : Type := {
  useLoaderData : LoaderData;
  useActionData : option ActionData;
  useNavigation : Navigation;
  useFormAction : string;
  (* the state cell of [useHydrated]: [false] until the effect has run *)
  useHydrated : bool
}.

Section Presentation.

(** [floatingToolbarClassName] of [~/components/floating-toolbar.tsx]. *)
Variable floatingToolbarClassName : string.

Definition formId : string := "note-editor".

Definition isSubmitting (h : Hooks) : bool :=
  let navigation := useNavigation h in
  let formAction' := useFormAction h in
  negb (NavigationState_eqb (state navigation) idle)
  && strict_eq (formMethod navigation) "post"
  && strict_eq (formAction navigation) formAction'.

(** [actionData?.status === 'error' ? actionData.errors.fieldErrors : null] *)
Definition fieldErrors_of (actionData : option ActionData)
  : option FieldErrors.t :=
  match actionData with
  | Some d =>
      if ActionStatus_eqb (status d) error
      then Some (fieldErrors (errors d)) else None
  | None => None
  end.

(** [actionData?.status === 'error' ? actionData.errors.formErrors : null] *)
Definition formErrors_of (actionData : option ActionData)
  : option (list string) :=
  match actionData with
  | Some d =>
      if ActionStatus_eqb (status d) error
      then Some (formErrors (errors d)) else None
  | None => None
  end.

(** [Boolean(xs?.length)]. *)
Definition Boolean_length (xs : option (list string)) : bool :=
  match xs with
  | Some xs => nonzero (Array_length xs)
  | None => false
  end.

Definition NoteEdit (h : Hooks) : Node :=
  let data := useLoaderData h in
  let actionData := useActionData h in
  let isSubmitting := isSubmitting h in
  let fieldErrors := fieldErrors_of actionData in
  let formErrors := formErrors_of actionData in
  let isHydrated := useHydrated h in
  let formHasErrors := Boolean_length formErrors in
  let formErrorId := if formHasErrors then Some "form-error" else None in
  let titleHasErrors := Boolean_length (option_map FieldErrors.title fieldErrors) in
  let titleErrorId := if titleHasErrors then Some "title-error" else None in
  let contentHasErrors :=
    Boolean_length (option_map FieldErrors.content fieldErrors) in
  let contentErrorId := if contentHasErrors then Some "content-error" else None in
  Element "div" [("className", PString "absolute inset-0")]
    [Element "Form"
       [("id", PString formId);
        ("noValidate", PBool isHydrated);
        ("method", PString "post");
        ("className",
         PString "flex h-full flex-col gap-y-4 overflow-y-auto overflow-x-hidden px-10 pb-28 pt-12");
        ("aria-invalid", or_undefined formHasErrors);
        ("aria-describedby", prop_of formErrorId)]
       [Element "div" [("className", PString "flex flex-col gap-1")]
          [Element "div" []
             [Element "Label" [("htmlFor", PString "note-title")] [Text "Title"];
              Element "Input"
                [("id", PString "note-title");
                 ("name", PString "title");
                 ("defaultValue", PString (NoteData.title (note data)));
                 ("required", PBool true);
                 ("minLength", PNum titleMinLength);
                 ("maxLength", PNum titleMaxLength);
                 ("aria-invalid", or_undefined titleHasErrors);
                 ("aria-describedby", prop_of titleErrorId);
                 ("autoFocus", PBool true)]
                [];
              Element "div" [("className", PString "min-h-[32px] px-4 pb-3 pt-1")]
                [ErrorList titleErrorId (option_map FieldErrors.title fieldErrors)]];
           Element "div" []
             [Element "Label" [("htmlFor", PString "note-content")] [Text "Content"];
              Element "Textarea"
                [("id", PString "note-content");
                 ("name", PString "content");
                 ("defaultValue", PString (NoteData.content (note data)));
                 ("required", PBool true);
                 ("minLength", PNum contentMinLength);
                 ("maxLength", PNum contentMaxLength);
                 ("aria-invalid", or_undefined contentHasErrors);
                 ("aria-describedby", prop_of contentErrorId)]
                [];
              Element "div" [("className", PString "min-h-[32px] px-4 pb-3 pt-1")]
                [ErrorList contentErrorId
                   (option_map FieldErrors.content fieldErrors)]]];
        ErrorList formErrorId formErrors];
     Element "div" [("className", PString floatingToolbarClassName)]
       [Element "Button"
          [("form", PString formId);
           ("variant", PString "destructive");
           ("type", PString "reset")]
          [Text "Reset"];
        Element "StatusButton"
          [("form", PString formId);
           ("type", PString "submit");
           ("disabled", PBool isSubmitting);
           ("status", PString (if isSubmitting then "pending" else "idle"))]
          [Text "Submit"]]].

End Presentation.

(** *** [ErrorBoundary] *)

(** What a status handler is called with. *)
Record StatusHandlerArgs : Type := {
  handler_error : Response.t;
  handler_params : Params
}.

Definition StatusHandlers : Type := list (Z * (StatusHandlerArgs -> Node)).

(** The double quote character of the handler's message. *)
Definition dquote : string := String (ascii_of_nat 34) EmptyString.

(** The [statusHandlers] the route's [ErrorBoundary] passes to
    [GeneralErrorBoundary]. *)
Definition ErrorBoundary : StatusHandlers :=
  [(404,
    fun args =>
      Element "p" []
        [Text ("No note with the id " ++ dquote);
         child_of (noteId (handler_params args));
         Text (dquote ++ " exists")])].

Fixpoint statusHandler (handlers : StatusHandlers) (status : Z)
  : option (StatusHandlerArgs -> Node) :=
  match handlers with
  | [] => None
  | (s, h) :: rest => if s =? status then Some h else statusHandler rest status
  end.

(** Modelled from the spec: [GeneralErrorBoundary] of
    [~/components/error-boundary.tsx], the "error-boundary/status-handler
    framework": a response thrown by a handler of the route is rendered
    by the status handler registered for its status, which receives the
    error and the route params.  What it renders when no handler is
    registered is left out. *)
Definition GeneralErrorBoundary (statusHandlers : StatusHandlers)
    (error : Response.t) (params : Params) : option Node :=
  match statusHandler statusHandlers (Response.status error) with
  | Some handler =>
      Some (handler {| handler_error := error; handler_params := params |})
  | None => None
  end.

(** ** An in-memory database *)

(** Modelled from the spec: the "simple in-memory database accessor" of
    [~/utils/db.server.ts], which the route only "reads and updates by
    id".  The notes are kept in a list; [findFirst] gives the first note
    whose id equals the one asked for, and [updateNote] replaces the
    title and content of the notes with the given id. *)
#[export] Instance memory_db : DbServer (list Note.t) := {
  db_note_findFirst id notes :=
    match id with
    | Some id => List.find (fun n => String.eqb (Note.id n) id) notes
    | None => None
    end;
  updateNote u notes :=
    List.map
      (fun n =>
         if String.eqb (Note.id n) (NoteUpdate.id u)
         then {| Note.id := Note.id n;
                 Note.title := NoteUpdate.title u;
                 Note.content := NoteUpdate.content u |}
         else n)
      notes
}.

(** A string of [n] copies of a character. *)
Fixpoint repeat_char (c : ascii) (n : nat) : string :=
  match n with
  | O => EmptyString
  | S n' => String c (repeat_char c n')
  end.

(** ** Sample data *)

Definition kody_note : Note.t :=
  {| Note.id := "d27a197e"; Note.title := "Basic Koala Facts";
     Note.content := "Koalas are found in the eucalyptus forests." |}.

Definition sample_db : list Note.t := [kody_note].

Definition sample_world : World (list Note.t) :=
  {| db := sample_db; log := [] |}.

Definition sample_params : Params :=
  {| noteId := Some "d27a197e"; username := Some "kody" |}.

(** A render after the submission of an empty title was rejected, while the
    next submission of the form is in flight. *)
Definition sample_hooks : Hooks :=
  {| useLoaderData :=
       {| note := {| NoteData.title := Note.title kody_note;
                     NoteData.content := Note.content kody_note |} |};
     useActionData :=
       Some {| status := error; errors := action_errors EmptyString "Body" |};
     useNavigation :=
       {| state := submitting;
          formMethod := Some "post";
          formAction := Some "/users/kody/notes/d27a197e/edit" |};
     useFormAction := "/users/kody/notes/d27a197e/edit";
     useHydrated := true |}.



Definition submission (fd : FormData) (p : Params) : DataFunctionArgs :=
  {| request := {| form := fd |}; params := p |}.

(** ** The ways [action] settles *)

Section ActionOutcomes.

Context {Db : Type} `{DbServer Db}.

Variables (args : DataFunctionArgs) (w : World Db).

(** The world once the request body has been read. *)
Definition body_read : World Db :=
  {| db := db w; log := push (log w) ReadFormData |}.

(** The world once the note has been updated as well. *)
Definition note_updated (u : NoteUpdate.t) : World Db :=
  {| db := updateNote u (db w);
     log := push (push (log w) ReadFormData) (UpdateNote u) |}.

(** Every way [action] can settle, by the check or the call that decides
    it. *)
Inductive action_run : Outcome Response.t * World Db -> Prop :=
| run_no_noteId :
    truthy (noteId (params args)) = None ->
    action_run (Thrown (new_Response "noteId param is required" 400), w)
| run_title_not_string (id : string) :
    truthy (noteId (params args)) = Some id ->
    typeof_string (FormData_get (form (request args)) "title") = None ->
    action_run (Thrown (new_Response "title must be a string" 400), body_read)
| run_content_not_string (id title : string) :
    truthy (noteId (params args)) = Some id ->
    typeof_string (FormData_get (form (request args)) "title") = Some title ->
    typeof_string (FormData_get (form (request args)) "content") = None ->
    action_run (Thrown (new_Response "content must be a string" 400), body_read)
| run_invalid (id title content : string) :
    truthy (noteId (params args)) = Some id ->
    typeof_string (FormData_get (form (request args)) "title") = Some title ->
    typeof_string (FormData_get (form (request args)) "content") = Some content ->
    hasErrors (action_errors title content) = true ->
    action_run
      (Returned (json (JAction {| status := error;
                                  errors := action_errors title content |})
                      {| init_status := Some 400 |}),
       body_read)
| run_valid (id title content location : string) :
    truthy (noteId (params args)) = Some id ->
    typeof_string (FormData_get (form (request args)) "title") = Some title ->
    typeof_string (FormData_get (form (request args)) "content") = Some content ->
    hasErrors (action_errors title content) = false ->
    header_value ("/users/" ++ interpolate (username (params args))
                  ++ "/notes/" ++ id) = Some location ->
    action_run
      (Returned {| Response.status := 302;
                   Response.location := Some location;
                   Response.body := BodyNull |},
       note_updated {| NoteUpdate.id := id;
                       NoteUpdate.title := title;
                       NoteUpdate.content := content |})
| run_no_redirect (id title content : string) :
    truthy (noteId (params args)) = Some id ->
    typeof_string (FormData_get (form (request args)) "title") = Some title ->
    typeof_string (FormData_get (form (request args)) "content") = Some content ->
    hasErrors (action_errors title content) = false ->
    header_value ("/users/" ++ interpolate (username (params args))
                  ++ "/notes/" ++ id) = None ->
    action_run
      (Raised TypeError,
       note_updated {| NoteUpdate.id := id;
                       NoteUpdate.title := title;
                       NoteUpdate.content := content |}).

End ActionOutcomes.

(** The [updateNote] calls among the events of a log. *)
Fixpoint updateNote_calls (evs : list Event) : list NoteUpdate.t :=
  match evs with
  | [] => []
  | UpdateNote u :: evs' => u :: updateNote_calls evs'
  | _ :: evs' => updateNote_calls evs'
  end.

(** The messages the action data holds for one field; none when there is
    no action data. *)
Definition errors_for (field : FieldErrors.t -> list string)
    (actionData : option ActionData) : list string :=
  match actionData with
  | Some d => field (fieldErrors (errors d))
  | None => []
  end.

(** The form-level messages of the action data. *)
Definition form_errors_for (actionData : option ActionData) : list string :=
  match actionData with
  | Some d => formErrors (errors d)
  | None => []
  end.

(** ** Reading a rendered tree *)

Definition children (n : Node) : list Node :=
  match n with
  | Element _ _ children => children
  | _ => []
  end.

(** The string a set of props gives for one attribute, if it gives one. *)
Definition string_prop (name : string) (props : Props) : list string :=
  match get_prop name props with
  | PString s => [s]
  | _ => []
  end.

(** The ids of the elements of a tree, in document order. *)
Fixpoint element_ids (n : Node) : list string :=
  match n with
  | Element _ props children =>
      (string_prop "id" props ++ flat_map element_ids children)%list
  | _ => []
  end.

(** The ids the elements of a tree refer to: a label by [htmlFor], a button
    by [form], any element by [aria-describedby]. *)
Fixpoint references (n : Node) : list string :=
  match n with
  | Element _ props children =>
      (string_prop "htmlFor" props ++ string_prop "form" props
       ++ string_prop "aria-describedby" props
       ++ flat_map references children)%list
  | _ => []
  end.

(** ** [useHydrated]

    The hook keeps one state cell, created by [useState(false)], and
    registers one effect with an empty dependency array.  React's part is
    modelled by what it keeps for the instance of the component: the cell,
    which does not exist before the first render.  A render reads the cell
    (the initial value when there is none yet) and hands back the effects to
    run once the render is committed; an effect with no dependency is handed
    back by the mounting render only. *)

Inductive Effect : Type := setHydrated (v : bool).

(** [useState(initial)]: the value of the cell for this render. *)
Definition useState (initial : bool) (cell : option bool) : bool :=
  match cell with
  | Some v => v
  | None => initial
  end.

(** [useEffect(effect, [])]: the effects this render leaves to run. *)
Definition useEffect_once (effect : Effect) (cell : option bool) : list Effect :=
  match cell with
  | None => [effect]
  | Some _ => []
  end.

(** One call of [useHydrated]: the value returned, the cell after the
    render, and the effects left to run. *)
Definition useHydrated_call (cell : option bool)
  : bool * option bool * list Effect :=
  let hydrated := useState false cell in
  let effects := useEffect_once (setHydrated true) cell in
  (hydrated, Some hydrated, effects).

Definition run_effect (cell : option bool) (e : Effect) : option bool :=
  match e with
  | setHydrated v => Some v
  end.

(** A render in the browser: the call, then its effects.  The result is the
    value the render saw and the cell it leaves. *)
Definition render_in_browser (cell : option bool) : bool * option bool :=
  let '(hydrated, cell', effects) := useHydrated_call cell in
  (hydrated, fold_left run_effect effects cell').

(** A render on the server: the call alone, effects do not run there. *)
Definition render_on_server (cell : option bool) : bool * option bool :=
  let '(hydrated, cell', _) := useHydrated_call cell in
  (hydrated, cell').

(** The values [n] successive renders of one instance see. *)
Fixpoint renders (render : option bool -> bool * option bool) (n : nat)
    (cell : option bool) : list bool :=
  match n with
  | O => []
  | S n' =>
      let '(hydrated, cell') := render cell in
      hydrated :: renders render n' cell'
  end.

(** ** Properties of the validation *)

(** The messages [action] collects for the title. *)
Lemma action_errors_title (title content : string) :
  FieldErrors.title (fieldErrors (action_errors title content)) =
  ((if length title <? titleMinLength
    then ["Title must be at least 1 character"] else [])
   ++ (if length title >? titleMaxLength
       then ["Title must be at most 100 characters"] else []))%list.
Proof.
  unfold action_errors.
  destruct (length title <? titleMinLength), (length title >? titleMaxLength),
    (length content <? contentMinLength), (length content >? contentMaxLength);
    reflexivity.
Qed.

(** The messages [action] collects for the content. *)
Lemma action_errors_content (title content : string) :
  FieldErrors.content (fieldErrors (action_errors title content)) =
  ((if length content <? contentMinLength
    then ["Content must be at least 1 character"] else [])
   ++ (if length content >? contentMaxLength
       then ["Content must be at most 10000 characters"] else []))%list.
Proof.
  unfold action_errors.
  destruct (length title <? titleMinLength), (length title >? titleMaxLength),
    (length content <? contentMinLength), (length content >? contentMaxLength);
    reflexivity.
Qed.

Lemma action_errors_form (title content : string) :
  formErrors (action_errors title content) = [].
Proof.
  unfold action_errors.
  destruct (length title <? titleMinLength), (length title >? titleMaxLength),
    (length content <? contentMinLength), (length content >? contentMaxLength);
    reflexivity.
Qed.

Lemma title_errors_nonempty (title content : string) :
  FieldErrors.title (fieldErrors (action_errors title content)) <> [] <->
  length title < 1 \/ length title > 100.
Proof.
  rewrite action_errors_title. unfold titleMinLength, titleMaxLength.
  destruct (Z.ltb_spec (length title) 1), (Z.gtb_spec (length title) 100);
    simpl; split; intros; try lia; try discriminate; try congruence.
Qed.

Lemma content_errors_nonempty (title content : string) :
  FieldErrors.content (fieldErrors (action_errors title content)) <> [] <->
  length content < 1 \/ length content > 10000.
Proof.
  rewrite action_errors_content. unfold contentMinLength, contentMaxLength.
  destruct (Z.ltb_spec (length content) 1), (Z.gtb_spec (length content) 10000);
    simpl; split; intros; try lia; try discriminate; try congruence.
Qed.

Lemma nonzero_length {A : Type} (xs : list A) :
  nonzero (Array_length xs) = true <-> xs <> [].
Proof.
  destruct xs; unfold nonzero, Array_length; simpl; split; intros;
    try discriminate; try congruence; reflexivity.
Qed.

Lemma hasErrors_true (errors : ActionErrors) :
  hasErrors errors = true <->
  formErrors errors <> []
  \/ FieldErrors.title (fieldErrors errors) <> []
  \/ FieldErrors.content (fieldErrors errors) <> [].
Proof.
  unfold hasErrors, Object_values. simpl.
  rewrite !orb_true_iff, !nonzero_length. intuition discriminate.
Qed.

Lemma hasErrors_action_errors (title content : string) :
  hasErrors (action_errors title content) = true <->
  length title < 1 \/ length title > 100
  \/ length content < 1 \/ length content > 10000.
Proof.
  rewrite hasErrors_true, action_errors_form,
    title_errors_nonempty, content_errors_nonempty.
  intuition congruence.
Qed.

Lemma hasErrors_action_errors_false (title content : string) :
  hasErrors (action_errors title content) = false <->
  (1 <= length title <= 100) /\ (1 <= length content <= 10000).
Proof.
  rewrite <- not_true_iff_false, hasErrors_action_errors. lia.
Qed.

(** Reading the request body is no call of [updateNote]. *)
Lemma updateNote_calls_read (evs : list Event) :
  updateNote_calls (push evs ReadFormData) = updateNote_calls evs.
Proof.
  unfold push. induction evs as [|e evs IH]; simpl; [reflexivity|].
  destruct e; simpl; now rewrite IH.
Qed.

(** ** How [action] runs *)

Section ActionRuns.

Context {Db : Type} `{DbServer Db}.

Variables (args : DataFunctionArgs) (w : World Db).

Lemma action_without_noteId :
  truthy (noteId (params args)) = None ->
  action args w = (Thrown (new_Response "noteId param is required" 400), w).
Proof.
  intros Hid. unfold action, bind. rewrite Hid. reflexivity.
Qed.

Lemma action_title_not_string (id : string) :
  truthy (noteId (params args)) = Some id ->
  typeof_string (FormData_get (form (request args)) "title") = None ->
  action args w =
  (Thrown (new_Response "title must be a string" 400), body_read w).
Proof.
  intros Hid Ht. unfold action, bind. rewrite Hid. simpl.
  rewrite Ht. reflexivity.
Qed.

Lemma action_content_not_string (id title : string) :
  truthy (noteId (params args)) = Some id ->
  typeof_string (FormData_get (form (request args)) "title") = Some title ->
  typeof_string (FormData_get (form (request args)) "content") = None ->
  action args w =
  (Thrown (new_Response "content must be a string" 400), body_read w).
Proof.
  intros Hid Ht Hc. unfold action, bind. rewrite Hid. simpl.
  rewrite Ht, Hc. reflexivity.
Qed.

Lemma action_validated (id title content : string) :
  truthy (noteId (params args)) = Some id ->
  typeof_string (FormData_get (form (request args)) "title") = Some title ->
  typeof_string (FormData_get (form (request args)) "content") = Some content ->
  action args w =
  if hasErrors (action_errors title content)
  then (Returned (json (JAction {| status := error;
                                   errors := action_errors title content |})
                       {| init_status := Some 400 |}),
        body_read w)
  else (redirect ("/users/" ++ interpolate (username (params args))
                  ++ "/notes/" ++ id),
        note_updated w {| NoteUpdate.id := id;
                          NoteUpdate.title := title;
                          NoteUpdate.content := content |}).
Proof.
  intros Hid Ht Hc. unfold action, bind. rewrite Hid. simpl.
  rewrite Ht, Hc. simpl.
  destruct (hasErrors (action_errors title content)); reflexivity.
Qed.

Lemma action_runs : action_run args w (action args w).
Proof.
  destruct (truthy (noteId (params args))) as [id|] eqn:Hid.
  - destruct (typeof_string (FormData_get (form (request args)) "title"))
      as [title|] eqn:Ht.
    + destruct (typeof_string (FormData_get (form (request args)) "content"))
        as [content|] eqn:Hc.
      * rewrite (action_validated id title content Hid Ht Hc).
        destruct (hasErrors (action_errors title content)) eqn:He.
        -- now apply (run_invalid args w id).
        -- unfold redirect.
           destruct (header_value
                       ("/users/" ++ interpolate (username (params args))
                        ++ "/notes/" ++ id)) as [location|] eqn:Hl.
           ++ now apply (run_valid args w id).
           ++ now apply (run_no_redirect args w id).
      * rewrite (action_content_not_string id title Hid Ht Hc).
        now apply (run_content_not_string args w id title).
    + rewrite (action_title_not_string id Hid Ht).
      now apply (run_title_not_string args w id).
  - rewrite (action_without_noteId Hid). now apply run_no_noteId.
Qed.

(** A submission with a title or a content of a wrong length never reaches
    [updateNote], whichever check stops it. *)
Lemma action_invalid_never_persists :
  (exists title : string,
     typeof_string (FormData_get (form (request args)) "title") = Some title
     /\ (length title < 1 \/ length title > 100))
  \/ (exists content : string,
        typeof_string (FormData_get (form (request args)) "content")
        = Some content
        /\ (length content < 1 \/ length content > 10000)) ->
  db (snd (action args w)) = db w
  /\ updateNote_calls (log (snd (action args w))) = updateNote_calls (log w).
Proof.
  intros Hbad.
  destruct action_runs
    as [Hid | id Hid Ht | id t Hid Ht Hc
        | id t c Hid Ht Hc He | id t c l Hid Ht Hc He Hl
        | id t c Hid Ht Hc He Hl];
    simpl; try (split; [reflexivity | try reflexivity; apply updateNote_calls_read]).
  all: apply hasErrors_action_errors_false in He.
  all: destruct Hbad as [(t' & Ht' & Hlen) | (c' & Hc' & Hlen)].
  all: try (rewrite Ht in Ht'; injection Ht' as <-; lia).
  all: rewrite Hc in Hc'; injection Hc' as <-; lia.
Qed.

End ActionRuns.

Lemma truthy_present (v : option string) (id : string) :
  v = Some id -> id <> EmptyString -> truthy v = Some id.
Proof.
  intros -> Hne. unfold truthy.
  destruct (String.eqb_spec id EmptyString); [contradiction | reflexivity].
Qed.

(** ** The write handler *)

(** C1, as amended.  A submission whose title is a string of a length
    outside [1,100], or whose content is a string of a length outside
    [1,10000], never reaches [updateNote]: the database is the one the
    handler started with and no call is logged, whichever check stops the
    handler.  When moreover the note id is present (a non-empty string,
    which is what the first check of [action] tests) and the title and the
    content are both strings, [action] returns the collected errors as JSON
    with status 400, having only read the request body. *)
Theorem action_rejects_invalid_lengths
    {Db : Type} `{DbServer Db} (args : DataFunctionArgs) (w : World Db) :
  (exists title : string,
     typeof_string (FormData_get (form (request args)) "title") = Some title
     /\ (length title < 1 \/ length title > 100))
  \/ (exists content : string,
        typeof_string (FormData_get (form (request args)) "content")
        = Some content
        /\ (length content < 1 \/ length content > 10000)) ->
  (db (snd (action args w)) = db w
   /\ updateNote_calls (log (snd (action args w))) = updateNote_calls (log w))
  /\ (forall id title content : string,
        noteId (params args) = Some id -> id <> EmptyString ->
        FormData_get (form (request args)) "title" = Some (FString title) ->
        FormData_get (form (request args)) "content" = Some (FString content) ->
        exists (r : Response.t) (w' : World Db),
          action args w = (Returned r, w')
          /\ Response.status r = 400
          /\ Response.body r =
             BodyJson (JAction {| status := error;
                                  errors := action_errors title content |})
          /\ db w' = db w
          /\ log w' = (log w ++ [ReadFormData])%list).
Proof.
  intros Hbad. split; [now apply action_invalid_never_persists|].
  intros id title content Hid Hne Ht Hc.
  assert (hasErrors (action_errors title content) = true) as He.
  { apply hasErrors_action_errors. rewrite Ht, Hc in Hbad. simpl in Hbad.
    destruct Hbad as [(t & Heq & Hlen) | (c & Heq & Hlen)];
      injection Heq as <-; tauto. }
  eexists. exists (body_read w). split.
  - rewrite (action_validated args w id title content).
    + rewrite He. reflexivity.
    + now apply truthy_present.
    + now rewrite Ht.
    + now rewrite Hc.
  - repeat split.
Qed.

(** C1, a use of the theorem: an empty title with the sample note. *)
Lemma action_rejects_invalid_lengths_witness :
  (db (snd (action (submission [("title", FString EmptyString);
                                ("content", FString "Body")] sample_params)
                   sample_world)) = db sample_world
   /\ updateNote_calls
        (log (snd (action (submission [("title", FString EmptyString);
                                       ("content", FString "Body")]
                             sample_params)
                     sample_world))) = [])
  /\ exists (r : Response.t) (w' : World (list Note.t)),
       action (submission [("title", FString EmptyString);
                           ("content", FString "Body")] sample_params)
              sample_world = (Returned r, w')
       /\ Response.status r = 400
       /\ Response.body r =
          BodyJson (JAction {| status := error;
                               errors := action_errors EmptyString "Body" |})
       /\ db w' = db sample_world
       /\ log w' = (log sample_world ++ [ReadFormData])%list.
Proof.
  destruct (action_rejects_invalid_lengths
              (submission [("title", FString EmptyString);
                           ("content", FString "Body")] sample_params)
              sample_world
              (or_introl (ex_intro _ EmptyString
                            (conj eq_refl (or_introl eq_refl)))))
    as [Hnever Hreturns].
  split; [exact Hnever|].
  apply (Hreturns "d27a197e" EmptyString "Body").
  - reflexivity.
  - discriminate.
  - reflexivity.
  - reflexivity.
Defined.

(** C1, as stated, fails.  A submission with an empty title (a length
    outside [1,100]) and the content "Body", sent without a note id, does
    not get the collected errors back: [action] throws the response of the
    failed note id check.  So does a submission with a note id and an empty
    title but no [content] field: [action] throws the response of the
    failed [content] check. *)
Lemma action_invalid_title_not_reported :
  let no_id :=
    submission [("title", FString EmptyString); ("content", FString "Body")]
      {| noteId := None; username := Some "kody" |} in
  let no_content :=
    submission [("title", FString EmptyString)] sample_params in
  length EmptyString < 1
  /\ action no_id sample_world =
     (Thrown (new_Response "noteId param is required" 400), sample_world)
  /\ ~ (exists (r : Response.t) (w' : World (list Note.t)),
          action no_id sample_world = (Returned r, w'))
  /\ action no_content sample_world =
     (Thrown (new_Response "content must be a string" 400),
      body_read sample_world)
  /\ ~ (exists (r : Response.t) (w' : World (list Note.t)),
          action no_content sample_world = (Returned r, w')).
Proof.
  cbv zeta. split; [reflexivity|]. split; [reflexivity|].
  split; [intros (r & w' & Hrun); vm_compute in Hrun; discriminate|].
  split; [reflexivity|].
  intros (r & w' & Hrun). vm_compute in Hrun. discriminate.
Qed.

(** C2.  For every string title and string content, the error object that
    [action] builds has a message in its title list exactly when the title
    length is below 1 or above 100, and a message in its content list
    exactly when the content length is below 1 or above 10000; each check
    writes to the list of its own field, so a violation on one field does
    not stop the other being recorded.  When such a submission reaches the
    checks (note id present), that object is what the 400 response carries;
    and there is a submission whose response has errors on both fields. *)
Theorem action_collects_field_errors (title content : string) :
  let errors := action_errors title content in
  (length title < 1 \/ length title > 100 <->
   FieldErrors.title (fieldErrors errors) <> [])
  /\ (length content < 1 \/ length content > 10000 <->
      FieldErrors.content (fieldErrors errors) <> [])
  /\ ((length title < 1 \/ length title > 100) ->
      (length content < 1 \/ length content > 10000) ->
      FieldErrors.title (fieldErrors errors) <> []
      /\ FieldErrors.content (fieldErrors errors) <> [])
  /\ (forall (Db : Type) (S : DbServer Db) (args : DataFunctionArgs)
        (w : World Db) (id : string),
        noteId (params args) = Some id -> id <> EmptyString ->
        FormData_get (form (request args)) "title" = Some (FString title) ->
        FormData_get (form (request args)) "content" = Some (FString content) ->
        FieldErrors.title (fieldErrors errors) <> []
        \/ FieldErrors.content (fieldErrors errors) <> [] ->
        action args w =
        (Returned (json (JAction {| status := error; errors := errors |})
                        {| init_status := Some 400 |}),
         body_read w))
  /\ (exists (args : DataFunctionArgs) (w' : World (list Note.t))
        (e : ActionErrors),
        action args sample_world =
        (Returned (json (JAction {| status := error; errors := e |})
                        {| init_status := Some 400 |}), w')
        /\ FieldErrors.title (fieldErrors e) <> []
        /\ FieldErrors.content (fieldErrors e) <> []).
Proof.
  cbv zeta.
  pose proof (title_errors_nonempty title content) as Ht.
  pose proof (content_errors_nonempty title content) as Hc.
  split; [symmetry; exact Ht|]. split; [symmetry; exact Hc|].
  split; [intros Hbt Hbc; split; [now apply Ht | now apply Hc]|].
  split.
  - intros Db S args w id Hid Hne Hgt Hgc Hbad.
    rewrite (action_validated args w id title content).
    + assert (hasErrors (action_errors title content) = true) as ->
        by (apply hasErrors_true; tauto).
      reflexivity.
    + now apply truthy_present.
    + now rewrite Hgt.
    + now rewrite Hgc.
  - exists (submission [("title", FString EmptyString);
                        ("content", FString EmptyString)]
                       sample_params).
    eexists. eexists. split; [vm_compute; reflexivity|].
    split; discriminate.
Qed.

(** C2, a use of the theorem: a title of 101 characters and an empty
    content are both reported, in the response as well. *)
Lemma action_collects_field_errors_witness :
  let title := repeat_char "t" 101 in
  let args := submission [("title", FString title);
                          ("content", FString EmptyString)] sample_params in
  FieldErrors.title (fieldErrors (action_errors title EmptyString)) <> []
  /\ FieldErrors.content (fieldErrors (action_errors title EmptyString)) <> []
  /\ action args sample_world =
     (Returned (json (JAction {| status := error;
                                 errors := action_errors title EmptyString |})
                     {| init_status := Some 400 |}),
      body_read sample_world).
Proof.
  cbv zeta.
  destruct (action_collects_field_errors (repeat_char "t" 101) EmptyString)
    as (Ht & Hc & Hboth & Hrun & _).
  assert (length (repeat_char "t" 101) > 100) as Hlong
    by (vm_compute; reflexivity).
  assert (length EmptyString < 1) as Hshort by (vm_compute; reflexivity).
  split; [apply Ht; right; exact Hlong|].
  split; [apply Hc; left; exact Hshort|].
  apply (Hrun (list Note.t) memory_db _ sample_world "d27a197e").
  - reflexivity.
  - discriminate.
  - reflexivity.
  - reflexivity.
  - left. apply Ht. right. exact Hlong.
Defined.




(** C6.  Without a note id, [action] throws a response with status 400 and
    the world is untouched: the request body has not been read.  When the
    form's title or content is not a string, [action] throws a response
    with status 400 as well; at most the request body has been read, so no
    length has been checked (no error object is returned) and [updateNote]
    has not been called.  With a note id, the response thrown is the one of
    the check that failed, title first. *)
Theorem action_bad_request
    {Db : Type} `{DbServer Db} (args : DataFunctionArgs) (w : World Db) :
  (noteId (params args) = None ->
   action args w =
   (Thrown (new_Response "noteId param is required" 400), w))
  /\ (typeof_string (FormData_get (form (request args)) "title") = None
      \/ typeof_string (FormData_get (form (request args)) "content") = None ->
      exists (r : Response.t) (w' : World Db),
        action args w = (Thrown r, w')
        /\ Response.status r = 400
        /\ (w' = w \/ w' = body_read w)
        /\ db w' = db w
        /\ updateNote_calls (log w') = updateNote_calls (log w))
  /\ (forall id : string,
        truthy (noteId (params args)) = Some id ->
        typeof_string (FormData_get (form (request args)) "title") = None ->
        action args w =
        (Thrown (new_Response "title must be a string" 400), body_read w))
  /\ (forall id title : string,
        truthy (noteId (params args)) = Some id ->
        typeof_string (FormData_get (form (request args)) "title") = Some title ->
        typeof_string (FormData_get (form (request args)) "content") = None ->
        action args w =
        (Thrown (new_Response "content must be a string" 400), body_read w)).
Proof.
  assert (updateNote_calls (log (body_read w)) = updateNote_calls (log w))
    as Hcalls.
  { apply updateNote_calls_read. }
  split; [|split; [|split]].
  - intros Hid. apply action_without_noteId. now rewrite Hid.
  - intros Hbad.
    pose proof (action_runs args w) as Hrun.
    inversion Hrun as [Hid Heq | id Hid Ht Heq | id t Hid Ht Hc Heq
                      | id t c Hid Ht Hc He Heq
                      | id t c l Hid Ht Hc He Hl Heq
                      | id t c Hid Ht Hc He Hl Heq].
    + eexists; exists w. repeat split; auto.
    + eexists; exists (body_read w). repeat split; auto.
    + eexists; exists (body_read w). repeat split; auto.
    + destruct Hbad as [Hb|Hb]; congruence.
    + destruct Hbad as [Hb|Hb]; congruence.
    + destruct Hbad as [Hb|Hb]; congruence.
  - intros id. apply action_title_not_string.
  - intros id title. apply action_content_not_string.
Qed.

(** C6, uses of the theorem: a submission without a note id, one whose
    title is a file and one that has no content field. *)
Lemma action_bad_request_witness :
  action (submission [("title", FString "Hi"); ("content", FString "Body")]
            {| noteId := None; username := Some "kody" |}) sample_world =
  (Thrown (new_Response "noteId param is required" 400), sample_world)
  /\ action (submission [("title", FFile "notes.txt");
                         ("content", FString "Body")] sample_params)
            sample_world =
     (Thrown (new_Response "title must be a string" 400),
      body_read sample_world)
  /\ action (submission [("title", FString "Hi")] sample_params)
            sample_world =
     (Thrown (new_Response "content must be a string" 400),
      body_read sample_world).
Proof.
  split; [|split].
  - exact (proj1 (action_bad_request
                    (submission [("title", FString "Hi");
                                 ("content", FString "Body")]
                       {| noteId := None; username := Some "kody" |})
                    sample_world) eq_refl).
  - exact (proj1 (proj2 (proj2 (action_bad_request
                    (submission [("title", FFile "notes.txt");
                                 ("content", FString "Body")] sample_params)
                    sample_world))) "d27a197e" eq_refl eq_refl).
  - exact (proj2 (proj2 (proj2 (action_bad_request
                    (submission [("title", FString "Hi")] sample_params)
                    sample_world))) "d27a197e" "Hi" eq_refl eq_refl eq_refl).
Defined.

(** C9.  Whenever [action] returns its error response, the [formErrors]
    list in it is empty. *)
Theorem action_no_form_errors
    {Db : Type} `{DbServer Db} (args : DataFunctionArgs) (w w' : World Db)
    (r : Response.t) (d : ActionData) :
  action args w = (Returned r, w') ->
  Response.body r = BodyJson (JAction d) ->
  formErrors (errors d) = [].
Proof.
  intros Hrun Hbody.
  pose proof (action_runs args w) as Hcases. rewrite Hrun in Hcases.
  inversion Hcases as [Hid Heq | id Hid Ht Heq | id t Hid Ht Hc Heq
                      | id t c Hid Ht Hc He Heq
                      | id t c l Hid Ht Hc He Hl Heq
                      | id t c Hid Ht Hc He Hl Heq];
    subst r; simpl in Hbody; try discriminate.
  injection Hbody as <-. simpl. apply action_errors_form.
Qed.

(** C9, a use of the theorem: an empty title and an empty content. *)
Lemma action_no_form_errors_witness :
  formErrors (errors {| status := error;
                        errors := action_errors EmptyString EmptyString |}) = [].
Proof.
  exact (action_no_form_errors
           (submission [("title", FString EmptyString);
                        ("content", FString EmptyString)] sample_params)
           sample_world (body_read sample_world)
           (json (JAction {| status := error;
                             errors := action_errors EmptyString EmptyString |})
                 {| init_status := Some 400 |})
           {| status := error;
              errors := action_errors EmptyString EmptyString |}
           eq_refl eq_refl).
Defined.

(** C10.  Whenever [action] returns its error response, the title list and
    the content list each hold at most one message: a length cannot be
    below the minimum and above the maximum at once. *)
Theorem action_one_message_per_field
    {Db : Type} `{DbServer Db} (args : DataFunctionArgs) (w w' : World Db)
    (r : Response.t) (d : ActionData) :
  action args w = (Returned r, w') ->
  Response.body r = BodyJson (JAction d) ->
  (List.length (FieldErrors.title (fieldErrors (errors d))) <= 1)%nat
  /\ (List.length (FieldErrors.content (fieldErrors (errors d))) <= 1)%nat.
Proof.
  intros Hrun Hbody.
  pose proof (action_runs args w) as Hcases. rewrite Hrun in Hcases.
  inversion Hcases as [Hid Heq | id Hid Ht Heq | id t Hid Ht Hc Heq
                      | id t c Hid Ht Hc He Heq
                      | id t c l Hid Ht Hc He Hl Heq
                      | id t c Hid Ht Hc He Hl Heq];
    subst r; simpl in Hbody; try discriminate.
  injection Hbody as <-. simpl.
  rewrite action_errors_title, action_errors_content.
  unfold titleMinLength, titleMaxLength, contentMinLength, contentMaxLength.
  split.
  - destruct (Z.ltb_spec (length t) 1), (Z.gtb_spec (length t) 100);
      simpl; lia.
  - destruct (Z.ltb_spec (length c) 1), (Z.gtb_spec (length c) 10000);
      simpl; lia.
Qed.

(** C10, a use of the theorem: a title of 101 characters and an empty
    content give one message each. *)
Lemma action_one_message_per_field_witness :
  let e := action_errors (repeat_char "t" 101) EmptyString in
  (List.length (FieldErrors.title (fieldErrors e)) <= 1)%nat
  /\ (List.length (FieldErrors.content (fieldErrors e)) <= 1)%nat.
Proof.
  exact (action_one_message_per_field
           (submission [("title", FString (repeat_char "t" 101));
                        ("content", FString EmptyString)] sample_params)
           sample_world (body_read sample_world)
           (json (JAction {| status := error;
                             errors := action_errors (repeat_char "t" 101)
                                         EmptyString |})
                 {| init_status := Some 400 |})
           {| status := error;
              errors := action_errors (repeat_char "t" 101) EmptyString |}
           ltac:(vm_compute; reflexivity) eq_refl).
Defined.

(** ** The read handler *)

(** What [findFirst] means in the in-memory database: it gives no note
    exactly when no stored note has the id, and a note it gives is a
    stored one with that id. *)
Lemma memory_db_findFirst_none (id : string) (notes : list Note.t) :
  db_note_findFirst (Some id) notes = None <->
  forall n, In n notes -> Note.id n <> id.
Proof.
  simpl. split.
  - intros Hnone n Hin Heq.
    apply (find_none _ _ Hnone) in Hin.
    rewrite Heq, String.eqb_refl in Hin. discriminate.
  - intros Hall. induction notes as [|n notes IH]; simpl; [reflexivity|].
    destruct (String.eqb_spec (Note.id n) id) as [Heq|Hne].
    + exfalso. apply (Hall n); [now left | exact Heq].
    + apply IH. intros m Hm. apply Hall. now right.
Qed.

Lemma memory_db_findFirst_some (id : string) (notes : list Note.t)
    (n : Note.t) :
  db_note_findFirst (Some id) notes = Some n -> In n notes /\ Note.id n = id.
Proof.
  simpl. intros Hfound. apply find_some in Hfound.
  destruct Hfound as [Hin Heq]. split; [exact Hin|].
  now apply String.eqb_eq.
Qed.

(** C4.  When the database has no note for the id of the route, [loader]
    throws a response with status 404; when it has one, [loader] returns,
    with status 200, the JSON [{note: {title, content}}] holding the title
    and the content of that note.  The database is only read. *)
Theorem loader_note_or_404
    {Db : Type} `{DbServer Db} (args : DataFunctionArgs) (w : World Db) :
  (db_note_findFirst (noteId (params args)) (db w) = None ->
   exists r : Response.t,
     loader args w = (Thrown r, w) /\ Response.status r = 404)
  /\ (forall n : Note.t,
        db_note_findFirst (noteId (params args)) (db w) = Some n ->
        exists r : Response.t,
          loader args w = (Returned r, w)
          /\ Response.status r = 200
          /\ Response.body r =
             BodyJson (JLoader {| note := {| NoteData.title := Note.title n;
                                             NoteData.content := Note.content n |} |})).
Proof.
  split.
  - intros Hnone. eexists. unfold loader, bind, findFirst.
    rewrite Hnone. split; reflexivity.
  - intros n Hsome. eexists. unfold loader, bind, findFirst.
    rewrite Hsome. repeat split.
Qed.

(** C4, uses of the theorem: the sample note is loaded, and an id that is
    not stored gives 404. *)
Lemma loader_note_or_404_witness :
  (exists r : Response.t,
     loader (submission [] {| noteId := Some "unknown";
                              username := Some "kody" |}) sample_world =
     (Thrown r, sample_world) /\ Response.status r = 404)
  /\ (exists r : Response.t,
        loader (submission [] sample_params) sample_world =
        (Returned r, sample_world)
        /\ Response.status r = 200
        /\ Response.body r =
           BodyJson (JLoader
             {| note := {| NoteData.title := "Basic Koala Facts";
                           NoteData.content :=
                             "Koalas are found in the eucalyptus forests." |} |})).
Proof.
  split.
  - exact (proj1 (loader_note_or_404
                    (submission [] {| noteId := Some "unknown";
                                      username := Some "kody" |})
                    sample_world) eq_refl).
  - exact (proj2 (loader_note_or_404 (submission [] sample_params)
                    sample_world) kody_note eq_refl).
Defined.

(** C5.  When the database has no note for the id of the route, [loader]
    throws a response with status 404, and the route's [ErrorBoundary]
    registers for that status a handler that shows the [noteId] route
    param between quotes: the error view of the thrown response is the
    paragraph [No note with the id "<noteId>" exists]. *)
Theorem loader_404_echoes_noteId
    {Db : Type} `{DbServer Db} (args : DataFunctionArgs) (w : World Db) :
  db_note_findFirst (noteId (params args)) (db w) = None ->
  exists (r : Response.t) (view : Node),
    loader args w = (Thrown r, w)
    /\ Response.status r = 404
    /\ GeneralErrorBoundary ErrorBoundary r (params args) = Some view
    /\ view =
       Element "p" []
         [Text ("No note with the id " ++ dquote);
          child_of (noteId (params args));
          Text (dquote ++ " exists")]
    /\ (forall id : string,
          noteId (params args) = Some id ->
          textContent view =
          "No note with the id " ++ dquote ++ id ++ dquote ++ " exists").
Proof.
  intros Hnone. eexists. eexists. unfold loader, bind, findFirst.
  rewrite Hnone. split; [reflexivity|]. split; [reflexivity|].
  split; [reflexivity|]. split; [reflexivity|].
  intros id Hid. cbn. rewrite Hid. reflexivity.
Qed.

(** C5, a use of the theorem: reading the note [unknown]. *)
Lemma loader_404_echoes_noteId_witness :
  exists (r : Response.t) (view : Node),
    loader (submission [] {| noteId := Some "unknown";
                             username := Some "kody" |}) sample_world =
    (Thrown r, sample_world)
    /\ Response.status r = 404
    /\ GeneralErrorBoundary ErrorBoundary r
         {| noteId := Some "unknown"; username := Some "kody" |} = Some view
    /\ view =
       Element "p" []
         [Text ("No note with the id " ++ dquote);
          Text "unknown";
          Text (dquote ++ " exists")]
    /\ (forall id : string,
          Some "unknown" = Some id ->
          textContent view =
          "No note with the id " ++ dquote ++ id ++ dquote ++ " exists").
Proof.
  exact (loader_404_echoes_noteId
           (submission [] {| noteId := Some "unknown";
                             username := Some "kody" |})
           sample_world eq_refl).
Defined.

(** ** The form *)

(** Searching an [ErrorList]: its items carry no id and are no component,
    so a search that does not stop at the list itself finds nothing. *)
Lemma find_items_none (p : string -> Props -> bool) (i : Z)
    (errs : list string) :
  (forall k : Z,
     p "li" [("key", PNum k);
             ("className", PString "text-[10px] text-foreground-danger")]
     = false) ->
  first_some (find p) (map_from ErrorList_item i errs) = None.
Proof.
  intros Hp. revert i. induction errs as [|e errs IH]; intros i; simpl.
  - reflexivity.
  - rewrite Hp. apply IH.
Qed.

Lemma find_ErrorList_other (p : string -> Props -> bool) (id : option string)
    (errs : option (list string)) :
  (forall k : Z,
     p "li" [("key", PNum k);
             ("className", PString "text-[10px] text-foreground-danger")]
     = false) ->
  p "ul" [("id", prop_of id); ("className", PString "flex flex-col gap-1")]
  = false ->
  find p (ErrorList id errs) = None.
Proof.
  intros Hp Hul. unfold ErrorList.
  destruct (match errs with
            | Some e => nonzero (Array_length e)
            | None => false
            end).
  - simpl. rewrite Hul. apply find_items_none. exact Hp.
  - reflexivity.
Qed.

Lemma find_ErrorList_self (p : string -> Props -> bool) (id : option string)
    (errs : list string) :
  errs <> [] ->
  p "ul" [("id", prop_of id); ("className", PString "flex flex-col gap-1")]
  = true ->
  find p (ErrorList id (Some errs)) = Some (ErrorList id (Some errs)).
Proof.
  intros Hne Hul. unfold ErrorList.
  apply nonzero_length in Hne. rewrite Hne. simpl. rewrite Hul. reflexivity.
Qed.

Lemma strict_eq_true (v : option string) (s : string) :
  strict_eq v s = true <-> v = Some s.
Proof.
  destruct v as [s'|]; simpl.
  - rewrite String.eqb_eq. split; congruence.
  - split; discriminate.
Qed.

Lemma isSubmitting_true (h : Hooks) :
  isSubmitting h = true <->
  state (useNavigation h) <> idle
  /\ formMethod (useNavigation h) = Some "post"
  /\ formAction (useNavigation h) = Some (useFormAction h).
Proof.
  unfold isSubmitting. rewrite !andb_true_iff, !strict_eq_true, negb_true_iff.
  destruct (state (useNavigation h)); simpl; intuition congruence.
Qed.

#[local] Arguments ErrorList : simpl never.

(** Walks the tree of [NoteEdit] down to the element searched for. *)
Ltac search_tree :=
  unfold getElementById, getElementByType, NoteEdit; cbv zeta; cbn;
  repeat (rewrite find_ErrorList_other
            by (try reflexivity; intro; reflexivity); cbn);
  repeat (rewrite find_ErrorList_self
            by (try reflexivity; discriminate); cbn).

(** Settles the attribute facts once the shape of each error list is known. *)
Ltac settle_attributes :=
  repeat match goal with
    | |- _ /\ _ => split
    | |- _ <-> _ => split; intros; try congruence; try discriminate
    | |- [] <> [] -> _ => let Hx := fresh in intros Hx; exfalso; apply Hx; reflexivity
    | |- _ :: _ <> [] -> _ => intros _
    | |- _ = _ => first [reflexivity | search_tree; reflexivity]
    end.

(** C7.  In every render of the form, the title input carries
    [aria-invalid] exactly when the action data holds at least one title
    error, and carries [aria-describedby] exactly then; when it does, the
    value of [aria-describedby] is [title-error], the id of the list that
    shows those errors.  The same holds of the content textarea with the
    content errors and [content-error], and of the form element with the
    form-level errors and [form-error]. *)
Theorem NoteEdit_aria_linkage (floatingToolbarClassName : string) (h : Hooks) :
  let tree := NoteEdit floatingToolbarClassName h in
  let title_errors := errors_for FieldErrors.title (useActionData h) in
  let content_errors := errors_for FieldErrors.content (useActionData h) in
  let form_errors := form_errors_for (useActionData h) in
  exists input textarea form : Node,
    getElementById "note-title" tree = Some input
    /\ getElementById "note-content" tree = Some textarea
    /\ getElementById "note-editor" tree = Some form
    /\ attribute "name" input = PString "title"
    /\ attribute "name" textarea = PString "content"
    /\ (carries "aria-invalid" input <-> title_errors <> [])
    /\ (carries "aria-describedby" input <-> title_errors <> [])
    /\ (title_errors <> [] ->
        attribute "aria-invalid" input = PBool true
        /\ attribute "aria-describedby" input = PString "title-error"
        /\ getElementById "title-error" tree =
           Some (ErrorList (Some "title-error") (Some title_errors)))
    /\ (carries "aria-invalid" textarea <-> content_errors <> [])
    /\ (carries "aria-describedby" textarea <-> content_errors <> [])
    /\ (content_errors <> [] ->
        attribute "aria-invalid" textarea = PBool true
        /\ attribute "aria-describedby" textarea = PString "content-error"
        /\ getElementById "content-error" tree =
           Some (ErrorList (Some "content-error") (Some content_errors)))
    /\ (carries "aria-invalid" form <-> form_errors <> [])
    /\ (carries "aria-describedby" form <-> form_errors <> [])
    /\ (form_errors <> [] ->
        attribute "aria-invalid" form = PBool true
        /\ attribute "aria-describedby" form = PString "form-error"
        /\ getElementById "form-error" tree =
           Some (ErrorList (Some "form-error") (Some form_errors))).
Proof.
  cbv zeta.
  destruct h as [data actionData nav fa hyd]. simpl useActionData.
  destruct actionData as [[[] [fe [te ce]]]|];
    simpl errors_for; simpl form_errors_for.
  - destruct te as [|t te], ce as [|c ce], fe as [|f fe].
    all: eexists; eexists; eexists.
    all: split; [search_tree; reflexivity|].
    all: split; [search_tree; reflexivity|].
    all: split; [search_tree; reflexivity|].
    all: split; [reflexivity|].
    all: split; [reflexivity|].
    all: unfold carries; simpl.
    all: settle_attributes.
  - eexists; eexists; eexists.
    split; [search_tree; reflexivity|].
    split; [search_tree; reflexivity|].
    split; [search_tree; reflexivity|].
    split; [reflexivity|].
    split; [reflexivity|].
    unfold carries; simpl.
    settle_attributes.
Qed.

(** C8.  In every render of the form, the submit button is disabled exactly
    when the navigation state is not idle, its form method is [post] and
    its form action is the action of this form. *)
Theorem NoteEdit_submit_disabled (floatingToolbarClassName : string)
    (h : Hooks) :
  exists button : Node,
    getElementByType "StatusButton" (NoteEdit floatingToolbarClassName h)
    = Some button
    /\ attribute "type" button = PString "submit"
    /\ attribute "form" button = PString formId
    /\ (attribute "disabled" button = PBool true
        \/ attribute "disabled" button = PBool false)
    /\ (attribute "disabled" button = PBool true <->
        state (useNavigation h) <> idle
        /\ formMethod (useNavigation h) = Some "post"
        /\ formAction (useNavigation h) = Some (useFormAction h)).
Proof.
  eexists. split; [search_tree; reflexivity|].
  split; [reflexivity|]. split; [reflexivity|]. simpl.
  rewrite <- isSubmitting_true.
  destruct (isSubmitting h); split.
  - now left.
  - split; congruence.
  - now right.
  - split; congruence.
Qed.

(** C7, a use of the theorem: after an empty title was rejected, the title
    input is marked invalid and described by the list of title errors,
    while the content textarea carries neither attribute. *)
Lemma NoteEdit_aria_linkage_witness :
  exists input textarea : Node,
    getElementById "note-title" (NoteEdit "floating-toolbar" sample_hooks)
    = Some input
    /\ getElementById "note-content" (NoteEdit "floating-toolbar" sample_hooks)
       = Some textarea
    /\ attribute "aria-invalid" input = PBool true
    /\ attribute "aria-describedby" input = PString "title-error"
    /\ getElementById "title-error" (NoteEdit "floating-toolbar" sample_hooks)
       = Some (ErrorList (Some "title-error")
                 (Some ["Title must be at least 1 character"]))
    /\ (carries "aria-invalid" textarea -> False)
    /\ (carries "aria-describedby" textarea -> False).
Proof.
  destruct (NoteEdit_aria_linkage "floating-toolbar" sample_hooks)
    as (input & textarea & form & Hinput & Htextarea & _ & _ & _
        & _ & _ & Htitle & Hinvalid & Hdescribed & _).
  exists input, textarea.
  split; [exact Hinput|]. split; [exact Htextarea|].
  destruct Htitle as (Ha & Hb & Hc); [discriminate|].
  split; [exact Ha|]. split; [exact Hb|]. split; [exact Hc|].
  split.
  - intros Hx. apply Hinvalid in Hx. apply Hx. reflexivity.
  - intros Hx. apply Hdescribed in Hx. apply Hx. reflexivity.
Defined.

(** C8, a use of the theorem: while a post to the form's own action is in
    flight, the submit button is disabled. *)
Lemma NoteEdit_submit_disabled_witness :
  exists button : Node,
    getElementByType "StatusButton" (NoteEdit "floating-toolbar" sample_hooks)
    = Some button
    /\ attribute "disabled" button = PBool true.
Proof.
  destruct (NoteEdit_submit_disabled "floating-toolbar" sample_hooks)
    as (button & Hbutton & _ & _ & _ & Hdisabled).
  exists button. split; [exact Hbutton|].
  apply Hdisabled. split; [discriminate|]. split; reflexivity.
Defined.

(** ** More about the write handler *)

Lemma updateNote_calls_push_update (evs : list Event) (u : NoteUpdate.t) :
  updateNote_calls (push evs (UpdateNote u)) = (updateNote_calls evs ++ [u])%list.
Proof.
  unfold push. induction evs as [|e evs IH]; simpl; [reflexivity|].
  destruct e; simpl; now rewrite IH.
Qed.

Lemma truthy_some (v : option string) (id : string) :
  truthy v = Some id -> v = Some id /\ id <> EmptyString.
Proof.
  unfold truthy. destruct v as [s|]; [|discriminate].
  destruct (String.eqb_spec s EmptyString); [discriminate|].
  intros Heq. injection Heq as <-. split; [reflexivity | assumption].
Qed.

Lemma typeof_string_some (v : option FormDataEntryValue) (s : string) :
  typeof_string v = Some s -> v = Some (FString s).
Proof.
  destruct v as [[s'|f]|]; simpl; intros Heq; try discriminate.
  now injection Heq as <-.
Qed.

(** X1.  A response [action] settles with is of one of three kinds.  A
    response it throws has status 400.  A response it returns has status
    400 and carries its error data, which holds an error, or has status 302,
    a [Location] header and no body.  Before the 302 [updateNote] has been
    called, once; before the other two it has not, and the database is the
    one the handler started with. *)
Theorem action_three_outcomes
    {Db : Type} `{DbServer Db} (args : DataFunctionArgs) (w w' : World Db)
    (o : Outcome Response.t) :
  action args w = (o, w') ->
  (forall r : Response.t,
     o = Thrown r ->
     Response.status r = 400
     /\ db w' = db w
     /\ updateNote_calls (log w') = updateNote_calls (log w))
  /\ (forall r : Response.t,
        o = Returned r ->
        (Response.status r = 400
         /\ (exists e : ActionErrors,
               Response.body r = BodyJson (JAction {| status := error;
                                                      errors := e |})
               /\ hasErrors e = true)
         /\ Response.location r = None
         /\ db w' = db w
         /\ updateNote_calls (log w') = updateNote_calls (log w))
        \/ (Response.status r = 302
            /\ Response.body r = BodyNull
            /\ exists (url : string) (u : NoteUpdate.t),
                 Response.location r = Some url
                 /\ db w' = updateNote u (db w)
                 /\ updateNote_calls (log w') =
                    (updateNote_calls (log w) ++ [u])%list)).
Proof.
  intros Hrun.
  pose proof (action_runs args w) as Hcases. rewrite Hrun in Hcases.
  inversion Hcases as [Hid Heq | id Hid Ht Heq | id t Hid Ht Hc Heq
                      | id t c Hid Ht Hc He Heq
                      | id t c l Hid Ht Hc He Hl Heq
                      | id t c Hid Ht Hc He Hl Heq];
    subst; split; intros r Hr; try discriminate; injection Hr as <-.
  - repeat split.
  - repeat split. apply updateNote_calls_read.
  - repeat split. apply updateNote_calls_read.
  - left. split; [reflexivity|].
    split; [eexists; split; [reflexivity | exact He]|].
    split; [reflexivity|]. split; [reflexivity|]. apply updateNote_calls_read.
  - right. split; [reflexivity|]. split; [reflexivity|].
    eexists; eexists. split; [reflexivity|]. split; [reflexivity|].
    simpl. now rewrite updateNote_calls_push_update, updateNote_calls_read.
Qed.

(** X1, a use of the theorem: the response to title="Hi", content="Body". *)
Lemma action_three_outcomes_witness :
  exists (url : string) (u : NoteUpdate.t),
    Some "/users/kody/notes/d27a197e" = Some url
    /\ updateNote_calls
         (log (snd (action
                      (submission [("title", FString "Hi");
                                   ("content", FString "Body")]
                         sample_params) sample_world)))
       = (updateNote_calls (log sample_world) ++ [u])%list.
Proof.
  destruct (proj2 (action_three_outcomes
                     (submission [("title", FString "Hi");
                                  ("content", FString "Body")] sample_params)
                     sample_world
                     (snd (action
                             (submission [("title", FString "Hi");
                                          ("content", FString "Body")]
                                sample_params) sample_world))
                     (fst (action
                             (submission [("title", FString "Hi");
                                          ("content", FString "Body")]
                                sample_params) sample_world))
                     eq_refl)
              {| Response.status := 302;
                 Response.location := Some "/users/kody/notes/d27a197e";
                 Response.body := BodyNull |}
              eq_refl)
    as [(Hs & _) | (_ & _ & url & u & Hurl & _ & Hcalls)].
  - discriminate Hs.
  - exists url, u. split; [exact Hurl | exact Hcalls].
Defined.

(** X2.  Whatever [action] passes to [updateNote] carries the note id of the
    route (never a value of the form), and a title and a content that are
    the strings submitted and whose lengths are within [1,100] and
    [1,10000]: an [updateNote] call in the log after the handler was there
    before, or it is such a call. *)
Theorem action_persists_only_valid_notes
    {Db : Type} `{DbServer Db} (args : DataFunctionArgs) (w : World Db)
    (u : NoteUpdate.t) :
  In u (updateNote_calls (log (snd (action args w)))) ->
  In u (updateNote_calls (log w))
  \/ (noteId (params args) = Some (NoteUpdate.id u)
      /\ FormData_get (form (request args)) "title"
         = Some (FString (NoteUpdate.title u))
      /\ FormData_get (form (request args)) "content"
         = Some (FString (NoteUpdate.content u))
      /\ 1 <= length (NoteUpdate.title u) <= 100
      /\ 1 <= length (NoteUpdate.content u) <= 10000).
Proof.
  destruct (action_runs args w)
    as [Hid | id Hid Ht | id t Hid Ht Hc
        | id t c Hid Ht Hc He | id t c l Hid Ht Hc He Hl
        | id t c Hid Ht Hc He Hl];
    simpl; try rewrite updateNote_calls_read; try (intros Hin; now left).
  all: rewrite updateNote_calls_push_update, updateNote_calls_read.
  all: intros Hin; apply in_app_or in Hin; destruct Hin as [Hin|[<-|[]]];
    [now left|].
  all: right; simpl.
  all: apply truthy_some in Hid; destruct Hid as [Hid _].
  all: apply typeof_string_some in Ht; apply typeof_string_some in Hc.
  all: apply hasErrors_action_errors_false in He.
  all: repeat split; try assumption; lia.
Qed.

(** X2, a use of the theorem: the call logged for title="Hi", content="Body". *)
Lemma action_persists_only_valid_notes_witness :
  In {| NoteUpdate.id := "d27a197e"; NoteUpdate.title := "Hi";
        NoteUpdate.content := "Body" |} (updateNote_calls (log sample_world))
  \/ (noteId sample_params = Some "d27a197e"
      /\ FormData_get [("title", FString "Hi"); ("content", FString "Body")]
           "title" = Some (FString "Hi")
      /\ FormData_get [("title", FString "Hi"); ("content", FString "Body")]
           "content" = Some (FString "Body")
      /\ 1 <= length "Hi" <= 100
      /\ 1 <= length "Body" <= 10000).
Proof.
  exact (action_persists_only_valid_notes
           (submission [("title", FString "Hi"); ("content", FString "Body")]
                       sample_params)
           sample_world
           {| NoteUpdate.id := "d27a197e"; NoteUpdate.title := "Hi";
              NoteUpdate.content := "Body" |}
           (or_introl eq_refl)).
Defined.

(** What [action] does is fixed by the route params and by the values
    [formData.get] gives for [title] and [content]. *)
Lemma action_reads_title_and_content
    {Db : Type} `{DbServer Db} (args args' : DataFunctionArgs) (w : World Db) :
  params args = params args' ->
  FormData_get (form (request args)) "title"
  = FormData_get (form (request args')) "title" ->
  FormData_get (form (request args)) "content"
  = FormData_get (form (request args')) "content" ->
  action args w = action args' w.
Proof.
  intros Hp Ht Hc. unfold action, bind. rewrite Hp.
  destruct (truthy (noteId (params args'))) as [id|]; simpl; [|reflexivity].
  rewrite Ht, Hc. reflexivity.
Qed.

(** [formData.get] gives the first value under a name: fields added after
    it, and fields of other names added before it, do not change it. *)
Lemma FormData_get_first (fd extra : FormData) (name : string)
    (v : FormDataEntryValue) :
  FormData_get fd name = Some v ->
  FormData_get (fd ++ extra)%list name = Some v.
Proof.
  induction fd as [|[k x] fd IH]; simpl; [discriminate|].
  destruct (String.eqb k name); [trivial | exact IH].
Qed.

Lemma FormData_get_other (fd : FormData) (name k : string)
    (v : FormDataEntryValue) :
  k <> name -> FormData_get ((k, v) :: fd) name = FormData_get fd name.
Proof.
  intros Hne. simpl. now destruct (String.eqb_spec k name).
Qed.

(** X3.  [action] reads nothing of the form but the first [title] and the
    first [content] value.  For a form that has both, fields sent after
    them (second values of [title] or [content] among them) and a field of
    another name sent before them leave the outcome and the effects of the
    handler unchanged. *)
Theorem action_ignores_other_fields
    {Db : Type} `{DbServer Db} (fd extra : FormData) (p : Params)
    (w : World Db) (k : string) (v title content : FormDataEntryValue) :
  FormData_get fd "title" = Some title ->
  FormData_get fd "content" = Some content ->
  k <> "title" -> k <> "content" ->
  action (submission ((k, v) :: fd ++ extra)%list p) w
  = action (submission fd p) w.
Proof.
  intros Ht Hc Hkt Hkc. apply action_reads_title_and_content.
  - reflexivity.
  - cbn [submission request form]. rewrite FormData_get_other by exact Hkt.
    rewrite Ht. now apply FormData_get_first.
  - cbn [submission request form]. rewrite FormData_get_other by exact Hkc.
    rewrite Hc. now apply FormData_get_first.
Qed.

(** X3, a use of the theorem: an [id] field and a second title change
    nothing. *)
Lemma action_ignores_other_fields_witness :
  action (submission
            [("id", FString "another-note");
             ("title", FString "Hi"); ("content", FString "Body");
             ("title", FString EmptyString)]
            sample_params) sample_world
  = action (submission [("title", FString "Hi"); ("content", FString "Body")]
              sample_params) sample_world.
Proof.
  exact (action_ignores_other_fields
           [("title", FString "Hi"); ("content", FString "Body")]
           [("title", FString EmptyString)]
           sample_params sample_world
           "id" (FString "another-note") (FString "Hi") (FString "Body")
           eq_refl eq_refl
           ltac:(discriminate) ltac:(discriminate)).
Defined.

(** X4.  [action] does not check the [username] param.  A valid submission
    for a route without it is persisted all the same, and the redirect goes
    to [/users/undefined/notes/:noteId], the template literal spelling the
    missing param out, provided that path is a header value as it
    stands. *)
Theorem action_redirect_without_username
    {Db : Type} `{DbServer Db} (args : DataFunctionArgs) (w : World Db)
    (id title content : string) :
  username (params args) = None ->
  noteId (params args) = Some id -> id <> EmptyString ->
  FormData_get (form (request args)) "title" = Some (FString title) ->
  FormData_get (form (request args)) "content" = Some (FString content) ->
  1 <= length title <= 100 ->
  1 <= length content <= 10000 ->
  header_value ("/users/undefined/notes/" ++ id)
  = Some ("/users/undefined/notes/" ++ id) ->
  action args w =
  (Returned {| Response.status := 302;
               Response.location := Some ("/users/undefined/notes/" ++ id);
               Response.body := BodyNull |},
   note_updated w {| NoteUpdate.id := id;
                     NoteUpdate.title := title;
                     NoteUpdate.content := content |}).
Proof.
  intros Hu Hid Hne Ht Hc Hlt Hlc Hurl.
  rewrite (action_validated args w id title content).
  - assert (hasErrors (action_errors title content) = false) as ->
      by now apply hasErrors_action_errors_false.
    rewrite Hu. cbn [interpolate]. unfold redirect.
    change ("/users/" ++ "undefined" ++ "/notes/" ++ id)
      with ("/users/undefined/notes/" ++ id).
    rewrite Hurl. reflexivity.
  - now apply truthy_present.
  - now rewrite Ht.
  - now rewrite Hc.
Qed.

(** X4, a use of the theorem. *)
Lemma action_redirect_without_username_witness :
  action (submission [("title", FString "Hi"); ("content", FString "Body")]
            {| noteId := Some "d27a197e"; username := None |}) sample_world =
  (Returned {| Response.status := 302;
               Response.location := Some "/users/undefined/notes/d27a197e";
               Response.body := BodyNull |},
   note_updated sample_world
     {| NoteUpdate.id := "d27a197e"; NoteUpdate.title := "Hi";
        NoteUpdate.content := "Body" |}).
Proof.
  exact (action_redirect_without_username
           (submission [("title", FString "Hi"); ("content", FString "Body")]
              {| noteId := Some "d27a197e"; username := None |})
           sample_world "d27a197e" "Hi" "Body"
           eq_refl eq_refl ltac:(discriminate) eq_refl eq_refl
           ltac:(vm_compute; split; discriminate)
           ltac:(vm_compute; split; discriminate)
           eq_refl).
Defined.

(** ** Writing, then reading *)

(** In the in-memory database, a note that is found is found again after an
    update under its id, with the title and content of the update. *)
Lemma memory_db_find_after_update (u : NoteUpdate.t) (notes : list Note.t)
    (n : Note.t) :
  db_note_findFirst (Some (NoteUpdate.id u)) notes = Some n ->
  db_note_findFirst (Some (NoteUpdate.id u)) (updateNote u notes) =
  Some {| Note.id := Note.id n;
          Note.title := NoteUpdate.title u;
          Note.content := NoteUpdate.content u |}.
Proof.
  simpl. induction notes as [|m notes IH]; simpl; [discriminate|].
  destruct (String.eqb (Note.id m) (NoteUpdate.id u)) eqn:Hm; simpl.
  - rewrite Hm. intros Heq. now injection Heq as <-.
  - rewrite Hm. exact IH.
Qed.

(** X5.  Writing, then reading.  Over a database in which a note that is
    found under an id is found again after [updateNote] under that id, with
    the title and content of the update, a valid submission for an existing
    note, on a route whose note path is a header value, is followed by a
    [loader] of the same route that returns the title and the content just
    submitted. *)
Theorem loader_after_action
    {Db : Type} `{DbServer Db} (args : DataFunctionArgs) (w : World Db)
    (id title content : string) (n : Note.t) :
  (forall (u : NoteUpdate.t) (d : Db) (m : Note.t),
     db_note_findFirst (Some (NoteUpdate.id u)) d = Some m ->
     db_note_findFirst (Some (NoteUpdate.id u)) (updateNote u d) =
     Some {| Note.id := Note.id m;
             Note.title := NoteUpdate.title u;
             Note.content := NoteUpdate.content u |}) ->
  noteId (params args) = Some id -> id <> EmptyString ->
  FormData_get (form (request args)) "title" = Some (FString title) ->
  FormData_get (form (request args)) "content" = Some (FString content) ->
  1 <= length title <= 100 ->
  1 <= length content <= 10000 ->
  header_value ("/users/" ++ interpolate (username (params args))
                ++ "/notes/" ++ id) <> None ->
  db_note_findFirst (Some id) (db w) = Some n ->
  exists (r : Response.t) (w' : World Db),
    action args w = (Returned r, w')
    /\ Response.status r = 302
    /\ loader args w' =
       (Returned (json (JLoader {| note := {| NoteData.title := title;
                                              NoteData.content := content |} |})
                       no_init),
        w').
Proof.
  intros Hlaw Hid Hne Ht Hc Hlt Hlc Hurl Hfound.
  destruct (header_value ("/users/" ++ interpolate (username (params args))
                          ++ "/notes/" ++ id)) as [location|] eqn:Hloc;
    [clear Hurl | contradiction].
  eexists. eexists. split.
  - rewrite (action_validated args w id title content).
    + assert (hasErrors (action_errors title content) = false) as ->
        by now apply hasErrors_action_errors_false.
      unfold redirect. rewrite Hloc. reflexivity.
    + now apply truthy_present.
    + now rewrite Ht.
    + now rewrite Hc.
  - split; [reflexivity|].
    unfold loader, bind, findFirst. rewrite Hid. cbn [note_updated db].
    pose proof (Hlaw {| NoteUpdate.id := id; NoteUpdate.title := title;
                        NoteUpdate.content := content |} (db w) n) as Hl.
    cbn [NoteUpdate.id NoteUpdate.title NoteUpdate.content] in Hl.
    rewrite (Hl Hfound). reflexivity.
Qed.

(** X5, a use of the theorem: the sample note, edited and read again from
    the in-memory database. *)
Lemma loader_after_action_witness :
  exists (r : Response.t) (w' : World (list Note.t)),
    action (submission [("title", FString "Hi"); ("content", FString "Body")]
              sample_params) sample_world = (Returned r, w')
    /\ Response.status r = 302
    /\ loader (submission [("title", FString "Hi"); ("content", FString "Body")]
                 sample_params) w' =
       (Returned (json (JLoader {| note := {| NoteData.title := "Hi";
                                              NoteData.content := "Body" |} |})
                       no_init),
        w').
Proof.
  exact (loader_after_action
           (submission [("title", FString "Hi"); ("content", FString "Body")]
              sample_params)
           sample_world "d27a197e" "Hi" "Body" kody_note
           memory_db_find_after_update
           eq_refl ltac:(discriminate) eq_refl eq_refl
           ltac:(vm_compute; split; discriminate)
           ltac:(vm_compute; split; discriminate)
           ltac:(vm_compute; discriminate)
           eq_refl).
Defined.

(** X17.  [action] persists before it redirects, and does not undo.  When
    the path [/users/:username/notes/:noteId] of a valid submission is no
    header value (a user name or a note id with a character outside
    Latin-1, or with a line break inside), [updateNote] has been called
    with the id, title and content by the time [redirect] fails with a
    [TypeError]: the handler returns no response and the note stays
    updated. *)
Theorem action_persists_before_redirect
    {Db : Type} `{DbServer Db} (args : DataFunctionArgs) (w : World Db)
    (id title content : string) :
  noteId (params args) = Some id -> id <> EmptyString ->
  FormData_get (form (request args)) "title" = Some (FString title) ->
  FormData_get (form (request args)) "content" = Some (FString content) ->
  1 <= length title <= 100 ->
  1 <= length content <= 10000 ->
  header_value ("/users/" ++ interpolate (username (params args))
                ++ "/notes/" ++ id) = None ->
  let u := {| NoteUpdate.id := id;
              NoteUpdate.title := title;
              NoteUpdate.content := content |} in
  exists w' : World Db,
    action args w = (Raised TypeError, w')
    /\ db w' = updateNote u (db w)
    /\ updateNote_calls (log w') = (updateNote_calls (log w) ++ [u])%list.
Proof.
  intros Hid Hne Ht Hc Hlt Hlc Hurl u.
  exists (note_updated w u). split.
  - rewrite (action_validated args w id title content).
    + assert (hasErrors (action_errors title content) = false) as ->
        by now apply hasErrors_action_errors_false.
      unfold redirect. rewrite Hurl. reflexivity.
    + now apply truthy_present.
    + now rewrite Ht.
    + now rewrite Hc.
  - split; [reflexivity|].
    simpl. now rewrite updateNote_calls_push_update, updateNote_calls_read.
Qed.

(** X17, a use of the theorem: a note id with a line break inside. *)
Lemma action_persists_before_redirect_witness :
  exists w' : World (list Note.t),
    action (submission [("title", FString "Hi"); ("content", FString "Body")]
              {| noteId := Some (String "a" (String (ascii_of_nat 10) "b"));
                 username := Some "kody" |}) sample_world
    = (Raised TypeError, w')
    /\ db w' =
       updateNote {| NoteUpdate.id := String "a" (String (ascii_of_nat 10) "b");
                     NoteUpdate.title := "Hi";
                     NoteUpdate.content := "Body" |} (db sample_world)
    /\ updateNote_calls (log w') =
       (updateNote_calls (log sample_world)
        ++ [{| NoteUpdate.id := String "a" (String (ascii_of_nat 10) "b");
               NoteUpdate.title := "Hi";
               NoteUpdate.content := "Body" |}])%list.
Proof.
  exact (action_persists_before_redirect
           (submission [("title", FString "Hi"); ("content", FString "Body")]
              {| noteId := Some (String "a" (String (ascii_of_nat 10) "b"));
                 username := Some "kody" |})
           sample_world (String "a" (String (ascii_of_nat 10) "b")) "Hi" "Body"
           eq_refl ltac:(discriminate) eq_refl eq_refl
           ltac:(vm_compute; split; discriminate)
           ltac:(vm_compute; split; discriminate)
           eq_refl).
Defined.

(** ** [ErrorList] *)

Lemma textContent_items (i : Z) (errs : list string) :
  List.map textContent (map_from ErrorList_item i errs) = errs.
Proof.
  revert i. induction errs as [|e errs IH]; intros i; simpl.
  - reflexivity.
  - now rewrite IH.
Qed.

Lemma keys_of_items (i : Z) (errs : list string) :
  List.map (attribute "key") (map_from ErrorList_item i errs) =
  List.map (fun k => PNum (i + Z.of_nat k)) (seq 0 (List.length errs)).
Proof.
  revert i. induction errs as [|e errs IH]; intros i.
  - reflexivity.
  - cbn [map_from List.map List.length seq]. f_equal.
    + cbn. now rewrite Z.add_0_r.
    + rewrite IH, <- seq_shift, map_map.
      apply map_ext. intros k. f_equal. lia.
Qed.

Lemma ErrorList_rendered (id : option string) (errs : list string) :
  errs <> [] ->
  ErrorList id (Some errs) =
  Element "ul"
    [("id", prop_of id); ("className", PString "flex flex-col gap-1")]
    (Array_map ErrorList_item errs).
Proof.
  intros Hne. unfold ErrorList.
  apply nonzero_length in Hne. now rewrite Hne.
Qed.

(** X6.  [ErrorList] renders nothing exactly when it is given no errors:
    [null], [undefined] or an empty array.  Given errors, it renders one
    list, under the id passed to it, whose items show the errors, all of
    them, one per item, in the order given. *)
Theorem ErrorList_shows_each_error (id : option string)
    (errors : option (list string)) :
  (ErrorList id errors = Null <-> errors = None \/ errors = Some [])
  /\ (forall errs : list string,
        errors = Some errs -> errs <> [] ->
        exists (props : Props) (items : list Node),
          ErrorList id errors = Element "ul" props items
          /\ get_prop "id" props = prop_of id
          /\ List.length items = List.length errs
          /\ List.map textContent items = errs
          /\ textContent (ErrorList id errors) = String.concat EmptyString errs).
Proof.
  split.
  - destruct errors as [[|e errs]|]; unfold ErrorList; simpl; split;
      intros Hx; try reflexivity; try discriminate; auto.
    destruct Hx as [Hx|Hx]; discriminate.
  - intros errs -> Hne. rewrite (ErrorList_rendered id errs Hne).
    eexists. eexists. split; [reflexivity|]. split; [reflexivity|].
    unfold Array_map. split; [|split].
    + rewrite <- (textContent_items 0 errs) at 2. now rewrite length_map.
    + apply textContent_items.
    + cbn [textContent]. now rewrite textContent_items.
Qed.

(** X6, a use of the theorem: two messages. *)
Lemma ErrorList_shows_each_error_witness :
  exists (props : Props) (items : list Node),
    ErrorList (Some "title-error") (Some ["Too short"; "Not a title"])
    = Element "ul" props items
    /\ get_prop "id" props = PString "title-error"
    /\ List.length items = 2%nat
    /\ List.map textContent items = ["Too short"; "Not a title"]
    /\ textContent
         (ErrorList (Some "title-error") (Some ["Too short"; "Not a title"]))
       = "Too shortNot a title".
Proof.
  exact (proj2 (ErrorList_shows_each_error (Some "title-error")
                  (Some ["Too short"; "Not a title"]))
           ["Too short"; "Not a title"] eq_refl ltac:(discriminate)).
Defined.

Lemma NoDup_map_injective {A B : Type} (f : A -> B) (l : list A) :
  (forall a b : A, f a = f b -> a = b) -> NoDup l -> NoDup (List.map f l).
Proof.
  intros Hinj Hl. induction Hl as [|x l Hx Hl IH]; simpl; constructor.
  - rewrite in_map_iff. intros (y & Heq & Hin).
    apply Hinj in Heq. subst y. contradiction.
  - exact IH.
Qed.

(** X7.  The items [ErrorList] renders are keyed by their index: the keys
    are 0, 1, ... in order, so no two items of a list share a key. *)
Theorem ErrorList_keys_are_indexes (id : option string)
    (errors : option (list string)) :
  let items := children (ErrorList id errors) in
  List.map (attribute "key") items =
  List.map (fun k => PNum (Z.of_nat k)) (seq 0 (List.length items))
  /\ NoDup (List.map (attribute "key") items).
Proof.
  cbv zeta.
  assert (forall n : nat,
            NoDup (List.map (fun k => PNum (Z.of_nat k)) (seq 0 n))) as Hnodup.
  { intros n. apply NoDup_map_injective; [|apply seq_NoDup].
    intros a b Heq. injection Heq as Heq. lia. }
  unfold ErrorList.
  destruct (match errors with
            | Some e => nonzero (Array_length e)
            | None => false
            end).
  - cbn [children]. unfold Array_map.
    assert (List.length
              (map_from ErrorList_item 0
                 (match errors with Some e => e | None => [] end))
            = List.length (match errors with Some e => e | None => [] end))
      as Hlen.
    { rewrite <- (textContent_items 0
                    (match errors with Some e => e | None => [] end)) at 2.
      now rewrite length_map. }
    rewrite Hlen, keys_of_items. split; [reflexivity | apply Hnodup].
  - split; [reflexivity | constructor].
Qed.


(** ** More about the form *)

Lemma element_ids_items (i : Z) (errs : list string) :
  flat_map element_ids (map_from ErrorList_item i errs) = [].
Proof.
  revert i. induction errs as [|e errs IH]; intros i; simpl; [reflexivity|].
  apply IH.
Qed.

Lemma references_items (i : Z) (errs : list string) :
  flat_map references (map_from ErrorList_item i errs) = [].
Proof.
  revert i. induction errs as [|e errs IH]; intros i; simpl; [reflexivity|].
  apply IH.
Qed.

Lemma element_ids_ErrorList (id : option string)
    (errs : option (list string)) :
  element_ids (ErrorList id errs) =
  if Boolean_length errs
  then match id with Some s => [s] | None => [] end
  else [].
Proof.
  unfold ErrorList, Boolean_length.
  destruct (match errs with
            | Some e => nonzero (Array_length e)
            | None => false
            end).
  - cbn [element_ids]. unfold Array_map. rewrite element_ids_items.
    destruct id; reflexivity.
  - reflexivity.
Qed.

Lemma references_ErrorList (id : option string)
    (errs : option (list string)) :
  references (ErrorList id errs) = [].
Proof.
  unfold ErrorList.
  destruct (match errs with
            | Some e => nonzero (Array_length e)
            | None => false
            end).
  - cbn [references]. unfold Array_map. rewrite references_items.
    destruct id; reflexivity.
  - reflexivity.
Qed.

(** Splits on whether each of the three error lists is shown. *)
Ltac split_on_errors :=
  repeat match goal with
    | |- context [Boolean_length ?x] => destruct (Boolean_length x)
    end.

(** X8.  In every render of the form no two elements have the same id. *)
Theorem NoteEdit_ids_unique (floatingToolbarClassName : string) (h : Hooks) :
  NoDup (element_ids (NoteEdit floatingToolbarClassName h)).
Proof.
  unfold NoteEdit. cbv zeta.
  cbn [element_ids flat_map string_prop get_prop String.eqb Ascii.eqb
       Bool.eqb app].
  rewrite !element_ids_ErrorList. unfold formId.
  split_on_errors; cbn [app];
    repeat (constructor; [simpl; intuition discriminate|]); constructor.
Qed.

(** X9.  In every render of the form each id an element refers to is the id
    of an element of the form: the [htmlFor] of both labels, the [form] of
    the two buttons that stand outside the form element, and every
    [aria-describedby]. *)
Theorem NoteEdit_references_resolve (floatingToolbarClassName : string)
    (h : Hooks) (ref : string) :
  In ref (references (NoteEdit floatingToolbarClassName h)) ->
  exists target : Node,
    getElementById ref (NoteEdit floatingToolbarClassName h) = Some target
    /\ attribute "id" target = PString ref.
Proof.
  destruct h as [data actionData nav fa hyd].
  destruct actionData as [[[] [fe [te ce]]]|].
  - destruct te as [|t te], ce as [|c ce], fe as [|f fe].
    all: unfold NoteEdit at 1; cbv zeta.
    all: cbn [references flat_map string_prop get_prop String.eqb Ascii.eqb
                Bool.eqb app useActionData fieldErrors_of formErrors_of
                ActionStatus_eqb status errors fieldErrors formErrors
                option_map FieldErrors.title FieldErrors.content
                Boolean_length nonzero Array_length List.length
                Z.of_nat Pos.of_succ_nat Z.eqb negb prop_of or_undefined].
    all: rewrite ?references_ErrorList; cbn [app In].
    all: intros Hin;
      repeat match goal with
        | Hx : _ \/ _ |- _ => destruct Hx as [Hx|Hx]
        | Hx : False |- _ => destruct Hx
        end; subst ref; eexists; (split; [search_tree; reflexivity|reflexivity]).
  - unfold NoteEdit at 1; cbv zeta.
    cbn [references flat_map string_prop get_prop String.eqb Ascii.eqb
           Bool.eqb app useActionData fieldErrors_of formErrors_of
           option_map Boolean_length prop_of or_undefined].
    rewrite ?references_ErrorList; cbn [app In].
    intros Hin;
      repeat match goal with
        | Hx : _ \/ _ |- _ => destruct Hx as [Hx|Hx]
        | Hx : False |- _ => destruct Hx
        end; subst ref; eexists; (split; [search_tree; reflexivity|reflexivity]).
Qed.

(** X9, a use of the theorem: the title input of a form that shows a title
    error refers to the list [title-error], which is in the form. *)
Lemma NoteEdit_references_resolve_witness :
  exists target : Node,
    getElementById "title-error" (NoteEdit "floating-toolbar" sample_hooks)
    = Some target
    /\ attribute "id" target = PString "title-error".
Proof.
  exact (NoteEdit_references_resolve "floating-toolbar" sample_hooks
           "title-error"
           ltac:(vm_compute; right; left; reflexivity)).
Defined.


(** The bounds the form declares are the bounds [action] checks. *)
Lemma within_bounds_no_errors (title content : string) :
  (titleMinLength <= length title <= titleMaxLength
   /\ contentMinLength <= length content <= contentMaxLength) <->
  hasErrors (action_errors title content) = false.
Proof.
  rewrite hasErrors_action_errors_false.
  unfold titleMinLength, titleMaxLength, contentMinLength, contentMaxLength.
  reflexivity.
Qed.

(** X10.  The length constraints the form declares on its two fields are
    those [action] enforces: with the [minLength] and [maxLength] read off
    the rendered title input and content textarea, a title and a content
    are within them exactly when the checks of [action] find no error.
    Both fields are also [required]. *)
Theorem NoteEdit_constraints_match_action (floatingToolbarClassName : string)
    (h : Hooks) :
  exists (input textarea : Node) (tmin tmax cmin cmax : Z),
    getElementById "note-title" (NoteEdit floatingToolbarClassName h)
    = Some input
    /\ getElementById "note-content" (NoteEdit floatingToolbarClassName h)
       = Some textarea
    /\ attribute "required" input = PBool true
    /\ attribute "required" textarea = PBool true
    /\ attribute "minLength" input = PNum tmin
    /\ attribute "maxLength" input = PNum tmax
    /\ attribute "minLength" textarea = PNum cmin
    /\ attribute "maxLength" textarea = PNum cmax
    /\ forall title content : string,
         (tmin <= length title <= tmax /\ cmin <= length content <= cmax) <->
         hasErrors (action_errors title content) = false.
Proof.
  assert (exists textarea : Node,
            getElementById "note-content" (NoteEdit floatingToolbarClassName h)
            = Some textarea
            /\ attribute "required" textarea = PBool true
            /\ attribute "minLength" textarea = PNum contentMinLength
            /\ attribute "maxLength" textarea = PNum contentMaxLength)
    as (textarea & Htextarea & Hrequired & Hmin & Hmax).
  { unfold getElementById, NoteEdit; cbv zeta. split_on_errors; cbn;
      rewrite ?find_ErrorList_other by (try reflexivity; intro; reflexivity);
      eexists; repeat split. }
  eexists. exists textarea, titleMinLength, titleMaxLength,
    contentMinLength, contentMaxLength.
  split; [unfold getElementById, NoteEdit; cbv zeta; reflexivity|].
  split; [exact Htextarea|].
  split; [reflexivity|]. split; [exact Hrequired|].
  split; [reflexivity|]. split; [reflexivity|].
  split; [exact Hmin|]. split; [exact Hmax|].
  apply within_bounds_no_errors.
Qed.

(** The error data [action] returns, field by field. *)
Lemma action_error_data
    {Db : Type} `{DbServer Db} (args : DataFunctionArgs) (w w' : World Db)
    (r : Response.t) (d : ActionData) (title content : string) :
  action args w = (Returned r, w') ->
  Response.body r = BodyJson (JAction d) ->
  FormData_get (form (request args)) "title" = Some (FString title) ->
  FormData_get (form (request args)) "content" = Some (FString content) ->
  d = {| status := error;
         errors :=
           {| formErrors := [];
              fieldErrors :=
                {| FieldErrors.title :=
                     ((if length title <? titleMinLength
                       then ["Title must be at least 1 character"] else [])
                      ++ (if length title >? titleMaxLength
                          then ["Title must be at most 100 characters"]
                          else []))%list;
                   FieldErrors.content :=
                     ((if length content <? contentMinLength
                       then ["Content must be at least 1 character"] else [])
                      ++ (if length content >? contentMaxLength
                          then ["Content must be at most 10000 characters"]
                          else []))%list |} |} |}.
Proof.
  intros Hrun Hbody Ht Hc.
  pose proof (action_runs args w) as Hcases. rewrite Hrun in Hcases.
  inversion Hcases as [Hid Heq | id Hid Hgt Heq | id t Hid Hgt Hgc Heq
                      | id t c Hid Hgt Hgc He Heq
                      | id t c l Hid Hgt Hgc He Hl Heq
                      | id t c Hid Hgt Hgc He Hl Heq];
    subst r; simpl in Hbody; try discriminate.
  injection Hbody as <-.
  rewrite Ht in Hgt. rewrite Hc in Hgc. simpl in Hgt, Hgc.
  injection Hgt as <-. injection Hgc as <-.
  rewrite <- action_errors_title with (content := content).
  rewrite <- action_errors_content with (title := title).
  rewrite <- (action_errors_form title content) at 1.
  destruct (action_errors title content) as [fe [te ce]]. reflexivity.
Qed.

(** Decides the four length tests of a submission. *)
Ltac split_on_lengths title content :=
  unfold titleMinLength, titleMaxLength, contentMinLength, contentMaxLength;
  destruct (Z.ltb_spec (length title) 1), (Z.gtb_spec (length title) 100),
    (Z.ltb_spec (length content) 1), (Z.gtb_spec (length content) 10000);
  try lia.

(** X11.  After a rejected submission, in the form rendered with the data
    [action] returned, the title input carries [aria-invalid] exactly when
    the title submitted has a length outside [1,100] and the content
    textarea exactly when the content submitted has a length outside
    [1,10000]; the form element itself never carries [aria-invalid] or
    [aria-describedby], and no list of form-level errors is rendered. *)
Theorem NoteEdit_after_rejection
    {Db : Type} `{DbServer Db} (args : DataFunctionArgs) (w w' : World Db)
    (r : Response.t) (d : ActionData) (title content : string)
    (floatingToolbarClassName : string) (h : Hooks) :
  action args w = (Returned r, w') ->
  Response.body r = BodyJson (JAction d) ->
  FormData_get (form (request args)) "title" = Some (FString title) ->
  FormData_get (form (request args)) "content" = Some (FString content) ->
  useActionData h = Some d ->
  exists input textarea form : Node,
    getElementById "note-title" (NoteEdit floatingToolbarClassName h)
    = Some input
    /\ getElementById "note-content" (NoteEdit floatingToolbarClassName h)
       = Some textarea
    /\ getElementById "note-editor" (NoteEdit floatingToolbarClassName h)
       = Some form
    /\ (carries "aria-invalid" input <->
        length title < 1 \/ length title > 100)
    /\ (carries "aria-invalid" textarea <->
        length content < 1 \/ length content > 10000)
    /\ attribute "aria-invalid" form = PUndefined
    /\ attribute "aria-describedby" form = PUndefined
    /\ getElementById "form-error" (NoteEdit floatingToolbarClassName h) = None.
Proof.
  intros Hrun Hbody Ht Hc Hdata.
  rewrite (action_error_data args w w' r d title content Hrun Hbody Ht Hc)
    in Hdata.
  destruct h as [data actionData nav fa hyd]. simpl in Hdata. subst actionData.
  split_on_lengths title content.
  all: cbn [app].
  all: eexists; eexists; eexists.
  all: split; [search_tree; reflexivity|].
  all: split; [search_tree; reflexivity|].
  all: split; [search_tree; reflexivity|].
  all: unfold carries; cbn [attribute get_prop String.eqb Ascii.eqb Bool.eqb].
  all: split;
    [split; intros Hx; first [lia | discriminate | congruence | exfalso; lia]|].
  all: split;
    [split; intros Hx; first [lia | discriminate | congruence | exfalso; lia]|].
  all: split; [reflexivity|]. all: split; [reflexivity|].
  all: search_tree; reflexivity.
Qed.

(** X11, a use of the theorem: an empty title with the content "Body". *)
Lemma NoteEdit_after_rejection_witness :
  exists input textarea form : Node,
    getElementById "note-title" (NoteEdit "floating-toolbar" sample_hooks)
    = Some input
    /\ getElementById "note-content" (NoteEdit "floating-toolbar" sample_hooks)
       = Some textarea
    /\ getElementById "note-editor" (NoteEdit "floating-toolbar" sample_hooks)
       = Some form
    /\ (carries "aria-invalid" input <->
        length EmptyString < 1 \/ length EmptyString > 100)
    /\ (carries "aria-invalid" textarea <->
        length "Body" < 1 \/ length "Body" > 10000)
    /\ attribute "aria-invalid" form = PUndefined
    /\ attribute "aria-describedby" form = PUndefined
    /\ getElementById "form-error" (NoteEdit "floating-toolbar" sample_hooks)
       = None.
Proof.
  exact (NoteEdit_after_rejection
           (submission [("title", FString EmptyString);
                        ("content", FString "Body")] sample_params)
           sample_world (body_read sample_world)
           (json (JAction {| status := error;
                             errors := action_errors EmptyString "Body" |})
                 {| init_status := Some 400 |})
           {| status := error; errors := action_errors EmptyString "Body" |}
           EmptyString "Body" "floating-toolbar" sample_hooks
           eq_refl eq_refl eq_refl eq_refl eq_refl).
Defined.


(** X12.  After a rejected submission the form shows, under each field, the
    message of the bound the value submitted broke, and nothing under a
    field whose value is within its bounds: the list [title-error] reads
    "Title must be at least 1 character" for an empty title and "Title must
    be at most 100 characters" for one over 100 characters, and the list
    [content-error] likewise with the messages of the content. *)
Theorem NoteEdit_shows_messages
    {Db : Type} `{DbServer Db} (args : DataFunctionArgs) (w w' : World Db)
    (r : Response.t) (d : ActionData) (title content : string)
    (floatingToolbarClassName : string) (h : Hooks) :
  action args w = (Returned r, w') ->
  Response.body r = BodyJson (JAction d) ->
  FormData_get (form (request args)) "title" = Some (FString title) ->
  FormData_get (form (request args)) "content" = Some (FString content) ->
  useActionData h = Some d ->
  let shown (id : string) : option string :=
    option_map textContent
      (getElementById id (NoteEdit floatingToolbarClassName h)) in
  (length title < 1 ->
   shown "title-error" = Some "Title must be at least 1 character")
  /\ (length title > 100 ->
      shown "title-error" = Some "Title must be at most 100 characters")
  /\ (1 <= length title <= 100 -> shown "title-error" = None)
  /\ (length content < 1 ->
      shown "content-error" = Some "Content must be at least 1 character")
  /\ (length content > 10000 ->
      shown "content-error" = Some "Content must be at most 10000 characters")
  /\ (1 <= length content <= 10000 -> shown "content-error" = None).
Proof.
  intros Hrun Hbody Ht Hc Hdata. cbv zeta.
  rewrite (action_error_data args w w' r d title content Hrun Hbody Ht Hc)
    in Hdata.
  destruct h as [data actionData nav fa hyd]. simpl in Hdata. subst actionData.
  split_on_lengths title content.
  all: cbn [app].
  all: repeat split; intros Hx; try lia.
  all: search_tree; reflexivity.
Qed.

(** X12, a use of the theorem: the message under an empty title. *)
Lemma NoteEdit_shows_messages_witness :
  option_map textContent
    (getElementById "title-error" (NoteEdit "floating-toolbar" sample_hooks))
  = Some "Title must be at least 1 character".
Proof.
  exact (proj1 (NoteEdit_shows_messages
                  (submission [("title", FString EmptyString);
                               ("content", FString "Body")] sample_params)
                  sample_world (body_read sample_world)
                  (json (JAction {| status := error;
                                    errors := action_errors EmptyString "Body" |})
                        {| init_status := Some 400 |})
                  {| status := error;
                     errors := action_errors EmptyString "Body" |}
                  EmptyString "Body" "floating-toolbar" sample_hooks
                  eq_refl eq_refl eq_refl eq_refl eq_refl)
           ltac:(vm_compute; reflexivity)).
Defined.


(** X13.  The form is filled in from what [loader] returned: rendered with
    the data of a [loader] response, the title input and the content
    textarea have as [defaultValue] the title and the content of the note
    the database gave for the note id of the route. *)
Theorem NoteEdit_prefilled_from_loader
    {Db : Type} `{DbServer Db} (args : DataFunctionArgs) (w w' : World Db)
    (r : Response.t) (d : LoaderData)
    (floatingToolbarClassName : string) (h : Hooks) :
  loader args w = (Returned r, w') ->
  Response.body r = BodyJson (JLoader d) ->
  useLoaderData h = d ->
  exists (n : Note.t) (input textarea : Node),
    db_note_findFirst (noteId (params args)) (db w) = Some n
    /\ getElementById "note-title" (NoteEdit floatingToolbarClassName h)
       = Some input
    /\ getElementById "note-content" (NoteEdit floatingToolbarClassName h)
       = Some textarea
    /\ attribute "defaultValue" input = PString (Note.title n)
    /\ attribute "defaultValue" textarea = PString (Note.content n).
Proof.
  intros Hrun Hbody Hdata. unfold loader, bind, findFirst in Hrun.
  destruct (db_note_findFirst (noteId (params args)) (db w)) as [n|];
    [|discriminate].
  injection Hrun as <- _. simpl in Hbody. injection Hbody as <-.
  assert (exists textarea : Node,
            getElementById "note-content" (NoteEdit floatingToolbarClassName h)
            = Some textarea
            /\ attribute "defaultValue" textarea
               = PString (NoteData.content (note (useLoaderData h))))
    as (textarea & Htextarea & Hvalue).
  { unfold getElementById, NoteEdit; cbv zeta. split_on_errors; cbn;
      rewrite ?find_ErrorList_other by (try reflexivity; intro; reflexivity);
      eexists; split; reflexivity. }
  exists n. eexists. exists textarea.
  split; [reflexivity|].
  split; [unfold getElementById, NoteEdit; cbv zeta; reflexivity|].
  split; [exact Htextarea|].
  split; [simpl; now rewrite Hdata|].
  rewrite Hvalue, Hdata. reflexivity.
Qed.

(** X13, a use of the theorem: the sample note in the form. *)
Lemma NoteEdit_prefilled_from_loader_witness :
  exists (n : Note.t) (input textarea : Node),
    db_note_findFirst (noteId sample_params) (db sample_world) = Some n
    /\ getElementById "note-title" (NoteEdit "floating-toolbar" sample_hooks)
       = Some input
    /\ getElementById "note-content" (NoteEdit "floating-toolbar" sample_hooks)
       = Some textarea
    /\ attribute "defaultValue" input = PString (Note.title n)
    /\ attribute "defaultValue" textarea = PString (Note.content n).
Proof.
  exact (NoteEdit_prefilled_from_loader
           (submission [] sample_params) sample_world sample_world
           (json (JLoader (useLoaderData sample_hooks)) no_init)
           (useLoaderData sample_hooks)
           "floating-toolbar" sample_hooks
           eq_refl eq_refl eq_refl).
Defined.


(** ** [useHydrated] *)

Lemma renders_in_browser_hydrated (n : nat) :
  renders render_in_browser n (Some true) = repeat true n.
Proof.
  induction n as [|n IH]; simpl; [reflexivity | now rewrite IH].
Qed.

Lemma renders_on_server_not_hydrated (n : nat) :
  renders render_on_server n (Some false) = repeat false n.
Proof.
  induction n as [|n IH]; simpl; [reflexivity | now rewrite IH].
Qed.

Lemma nth_repeat_default {A : Type} (a : A) (n m : nat) :
  nth n (repeat a m) a = a.
Proof.
  revert n. induction m as [|m IH]; intros [|n]; simpl; auto.
Qed.

(** X14.  [useHydrated] gives [false] to the first render of an instance
    and [true] to every later render in the browser, where its effect runs
    once the first render is committed; on the server, where effects do not
    run, it gives [false] to every render.  The form passes the value on as
    [noValidate]: native validation is switched off in every browser render
    but the first, and in no server render. *)
Theorem NoteEdit_noValidate_once_hydrated (floatingToolbarClassName : string)
    (h : Hooks) (n : nat) :
  renders render_in_browser (S n) None = false :: repeat true n
  /\ renders render_on_server (S n) None = repeat false (S n)
  /\ exists form : Node,
       getElementById "note-editor" (NoteEdit floatingToolbarClassName h)
       = Some form
       /\ (useHydrated h = nth n (renders render_in_browser (S n) None) false ->
           attribute "noValidate" form = PBool (negb (Nat.eqb n 0)))
       /\ (useHydrated h = nth n (renders render_on_server (S n) None) false ->
           attribute "noValidate" form = PBool false).
Proof.
  assert (renders render_in_browser (S n) None = false :: repeat true n)
    as Hbrowser.
  { cbn [renders render_in_browser useHydrated_call useState useEffect_once
         fold_left run_effect]. now rewrite renders_in_browser_hydrated. }
  assert (renders render_on_server (S n) None = repeat false (S n))
    as Hserver.
  { cbn [renders render_on_server useHydrated_call useState useEffect_once].
    now rewrite renders_on_server_not_hydrated. }
  split; [exact Hbrowser|]. split; [exact Hserver|].
  eexists. split; [unfold getElementById, NoteEdit; cbv zeta; reflexivity|].
  rewrite Hbrowser, Hserver. cbn [attribute get_prop String.eqb Ascii.eqb Bool.eqb].
  split; intros ->.
  - destruct n as [|n]; [reflexivity|].
    cbn [nth Nat.eqb negb]. f_equal.
    clear. revert n. induction n as [|n IH]; [reflexivity|].
    cbn [repeat nth]. destruct n; [reflexivity | exact IH].
  - f_equal. apply nth_repeat_default.
Qed.

(** X14, a use of the theorem: the second render in the browser. *)
Lemma NoteEdit_noValidate_once_hydrated_witness :
  exists form : Node,
    getElementById "note-editor" (NoteEdit "floating-toolbar" sample_hooks)
    = Some form
    /\ attribute "noValidate" form = PBool true.
Proof.
  destruct (NoteEdit_noValidate_once_hydrated "floating-toolbar"
              sample_hooks 1)
    as (_ & _ & form & Hform & Hbrowser & _).
  exists form. split; [exact Hform|]. apply Hbrowser. reflexivity.
Defined.


(** ** [ErrorBoundary] *)

(** X15.  The route's [ErrorBoundary] registers a handler for the status 404
    and for no other.  The response [loader] throws has a handler; the
    responses [action] throws have none.  What the 404 handler shows is
    fixed by the [noteId] param, whatever the error: the id between quotes,
    and nothing between them when the param is missing. *)
Theorem ErrorBoundary_handles_only_404 {Db : Type} `{DbServer Db} :
  (forall s : Z, statusHandler ErrorBoundary s = None <-> s <> 404)
  /\ (forall (args : DataFunctionArgs) (w w' : World Db) (r : Response.t),
        loader args w = (Thrown r, w') ->
        statusHandler ErrorBoundary (Response.status r) <> None)
  /\ (forall (args : DataFunctionArgs) (w w' : World Db) (r : Response.t),
        action args w = (Thrown r, w') ->
        statusHandler ErrorBoundary (Response.status r) = None)
  /\ (forall (error : Response.t) (p : Params),
        exists handler : StatusHandlerArgs -> Node,
          statusHandler ErrorBoundary 404 = Some handler
          /\ textContent
               (handler {| handler_error := error; handler_params := p |})
             = "No note with the id " ++ dquote
               ++ match noteId p with Some id => id | None => EmptyString end
               ++ dquote ++ " exists").
Proof.
  split; [|split; [|split]].
  - intros s. unfold ErrorBoundary. cbn [statusHandler].
    destruct (Z.eqb_spec 404 s) as [Heq|Hne]; split; intros Hx;
      try discriminate; try congruence; reflexivity.
  - intros args w w' r Hrun. unfold loader, bind, findFirst in Hrun.
    destruct (db_note_findFirst (noteId (params args)) (db w));
      [discriminate|].
    injection Hrun as <- _. discriminate.
  - intros args w w' r Hrun.
    pose proof (action_runs args w) as Hcases. rewrite Hrun in Hcases.
    inversion Hcases; reflexivity.
  - intros error p. eexists. split; [reflexivity|].
    cbn. destruct (noteId p); reflexivity.
Qed.

(** X15, a use of the theorem: the response [action] throws for a
    submission without a content field has no handler here. *)
Lemma ErrorBoundary_handles_only_404_witness :
  statusHandler ErrorBoundary
    (Response.status (new_Response "content must be a string" 400)) = None.
Proof.
  exact (proj1 (proj2 (proj2 (ErrorBoundary_handles_only_404
                                (Db := list Note.t))))
           (submission [("title", FString "Hi")] sample_params)
           sample_world (body_read sample_world)
           (new_Response "content must be a string" 400)
           eq_refl).
Defined.

(** ** The pending indicator *)

(** X16.  The submit button follows the submissions of this form.  With
    the method read off the rendered form element, the button is disabled
    and shows the status [pending] exactly when a navigation is under way
    with that method and with the action of this form; otherwise it is
    enabled and shows [idle]. *)
Theorem NoteEdit_pending_follows_form (floatingToolbarClassName : string)
    (h : Hooks) :
  exists (form button : Node) (method : string),
    getElementById "note-editor" (NoteEdit floatingToolbarClassName h)
    = Some form
    /\ getElementByType "StatusButton" (NoteEdit floatingToolbarClassName h)
       = Some button
    /\ attribute "method" form = PString method
    /\ attribute "form" button = attribute "id" form
    /\ ((state (useNavigation h) <> idle
         /\ formMethod (useNavigation h) = Some method
         /\ formAction (useNavigation h) = Some (useFormAction h)) ->
        attribute "disabled" button = PBool true
        /\ attribute "status" button = PString "pending")
    /\ (~ (state (useNavigation h) <> idle
           /\ formMethod (useNavigation h) = Some method
           /\ formAction (useNavigation h) = Some (useFormAction h)) ->
        attribute "disabled" button = PBool false
        /\ attribute "status" button = PString "idle").
Proof.
  eexists. eexists. exists "post".
  split; [unfold getElementById, NoteEdit; cbv zeta; reflexivity|].
  split; [search_tree; reflexivity|].
  split; [reflexivity|]. split; [reflexivity|].
  cbn [attribute get_prop String.eqb Ascii.eqb Bool.eqb].
  rewrite <- isSubmitting_true.
  destruct (isSubmitting h); split; intros Hx;
    first [split; reflexivity | discriminate | exfalso; now apply Hx].
Qed.

(** X16, a use of the theorem: a post to the form's own action is in
    flight. *)
Lemma NoteEdit_pending_follows_form_witness :
  exists button : Node,
    getElementByType "StatusButton" (NoteEdit "floating-toolbar" sample_hooks)
    = Some button
    /\ attribute "disabled" button = PBool true
    /\ attribute "status" button = PString "pending".
Proof.
  destruct (NoteEdit_pending_follows_form "floating-toolbar" sample_hooks)
    as (form & button & method & Hform & Hbutton & Hmethod & _ & Hpending & _).
  exists button. split; [exact Hbutton|].
  apply Hpending.
  cbv in Hform. injection Hform as <-.
  cbv in Hmethod. injection Hmethod as <-.
  split; [discriminate|]. split; reflexivity.
Defined.
